(** * Speech-to-text provider layer (client/stt.py)

    A shallow embedding of [client/stt.py]: the three provider adapters
    ([GoogleSTT], [AttSTT], [WitAiSTT]), the registry ([get_engines]) and
    the selector ([get_engine_by_slug]), with the properties the
    specification states about them.

    The Python code is embedded as it is written: values of the interpreter
    are an inductive type, exceptions are data, and a method body is a
    computation in a state-and-exception monad whose state holds the
    instance attributes, the requests sent so far and the log. *)

From Stdlib Require Import ZArith QArith Ascii String List Sorted Permutation Lia.
From stdpp Require Import base option list gmap strings.

#[local] Set Warnings "-register-all".
#[local] Open Scope string_scope.
#[local] Open Scope Z_scope.

(** ** Python values *)

(** A Python float: a finite binary64 number is held by its exact rational
    value, on which Python's comparison of finite numbers is the comparison
    of rationals. *)
Inductive pyfloat : Type :=
  | Finite (q : Q)
  | Infinity (negative : bool)
  | NaN.

(** The values the module handles: what [json.loads], [r.json()] and
    [yaml.safe_load] return, and what a caller may pass as a slug. A dict
    has [str] keys, as every JSON object has. *)
Inductive pyval : Type :=
  | PyNone
  | PyBool (b : bool)
  | PyInt (z : Z)
  | PyFloat (f : pyfloat)
  | PyStr (s : string)
  | PyList (l : list pyval)
  | PyTuple (l : list pyval)
  | PyDict (d : gmap string pyval).

(** ** Exceptions *)

Inductive exc_type : Type :=
  | TypeError | ValueError | KeyError | IndexError | AttributeError
  | EOFError | wave_Error
  | RequestException | HTTPError | ConnectionError | Timeout.

Definition exc_type_eqb (a b : exc_type) : bool :=
  match a, b with
  | TypeError, TypeError | ValueError, ValueError | KeyError, KeyError
  | IndexError, IndexError | AttributeError, AttributeError
  | EOFError, EOFError | wave_Error, wave_Error
  | RequestException, RequestException | HTTPError, HTTPError
  | ConnectionError, ConnectionError | Timeout, Timeout => true
  | _, _ => false
  end.

(** The class hierarchy an [except] clause tests: the exceptions of
    [requests] derive from [requests.exceptions.RequestException]. *)
Definition issubclass (c base : exc_type) : bool :=
  exc_type_eqb c base ||
  match base, c with
  | RequestException, (HTTPError | ConnectionError | Timeout) => true
  | _, _ => false
  end.

(** An exception instance: its class and its [args]. *)
Record exn : Type := Exc { exc_class : exc_type; exc_args : list pyval }.

Definition isinstance (e : exn) (base : exc_type) : bool :=
  issubclass (exc_class e) base.

(** The result of evaluating an expression or running a statement. *)
Inductive result (A : Type) : Type :=
  | Ret (a : A)
  | Raise (e : exn).
Arguments Ret {A} a.
Arguments Raise {A} e.

(** ** Logging *)

Inductive level : Type := DEBUG | INFO | WARNING | CRITICAL.

(** A call [logger.<level>(fmt, *args)]. *)
Record log_record : Type :=
  LogRecord { log_level : level; log_fmt : string; log_args : list pyval }.

(** ** Requests and responses *)

(** A header value is a literal or a [%]-formatted string, kept with its
    argument: ['Bearer %s' % token] is [HFormat "Bearer %s" token]. *)
Inductive header_value : Type :=
  | HStr (s : string)
  | HFormat (fmt : string) (arg : pyval).

(** The body of a POST: raw bytes, or a form (a dict of fields). *)
Inductive body : Type :=
  | Bytes (data : list Byte.byte)
  | Form (fields : list (string * pyval)).

(** A URL is a string, or the 6-tuple given to [urlunparse] with the
    query still the list handed to [urlencode]. *)
Inductive url : Type :=
  | UrlStr (s : string)
  | UrlParts (scheme netloc path : string) (query : list (string * pyval)).

(** The first argument of [post]: [GoogleSTT.request_url] may be [None]. *)
Record request : Type :=
  Request { req_url : option url; req_data : body;
            req_headers : list (string * header_value) }.

(** A response object, by what the module reads from it: [r.status_code],
    [r.text] and what the call [r.json()] returns or raises. *)
Record response : Type :=
  Response { status_code : Z; text : string; json : result pyval }.

(** The audio file object [fp]: what [wave.open(fp, 'rb').getframerate()]
    gives (or raises, on a file that is no WAV file) and what [fp.read()]
    returns. *)
Record audio_file : Type :=
  AudioFile { getframerate : result pyval; read : list Byte.byte }.

(** ** The state-and-exception monad *)

(** The state of a method call on an instance of type [I]: the instance
    attributes, the requests sent so far (oldest first) and the log. *)
Record state (I : Type) : Type :=
  State { self : I; sent : list request; log : list log_record }.
Arguments State {I} self sent log.
Arguments self {I} s.
Arguments sent {I} s.
Arguments log {I} s.

(** A statement: from a state to a result and the state it leaves; a
    raised exception keeps the mutations made before it. *)
Definition M (I A : Type) : Type := state I -> result A * state I.

#[export] Instance M_ret {I} : MRet (M I) := fun A a s => (Ret a, s).
#[export] Instance M_bind {I} : MBind (M I) := fun A B f m s =>
  match m s with
  | (Ret a, s') => f a s'
  | (Raise e, s') => (Raise e, s')
  end.

Definition raise {I A} (e : exn) : M I A := fun s => (Raise e, s).

Definition lift {I A} (r : result A) : M I A := fun s => (r, s).

Definition get_self {I} : M I I := fun s => (Ret (self s), s).

Definition set_self {I} (f : I -> I) : M I unit :=
  fun s => (Ret tt, State (f (self s)) (sent s) (log s)).

Definition logger {I} (lv : level) (fmt : string) (args : list pyval) : M I unit :=
  fun s => (Ret tt, State (self s) (sent s) (log s ++ [LogRecord lv fmt args])).

(** [try: body / except ...: handler / else: orelse]. [handler e] is
    [None] when no [except] clause matches [e]; an exception raised by the
    handler or by [orelse] is not caught here. *)
Definition try_except_else {I A B}
    (body : M I A) (handler : exn -> option (M I B)) (orelse : A -> M I B) : M I B :=
  fun s =>
    match body s with
    | (Ret a, s') => orelse a s'
    | (Raise e, s') =>
        match handler e with
        | Some h => h s'
        | None => (Raise e, s')
        end
    end.

(** The transport: what sending a request answers, given the requests sent
    before it; it answers with a response or raises (no connection, a
    timeout). *)
Definition transport : Type := list request -> request -> result response.

(** [requests.post(url, data=..., headers=...)]. *)
Definition post {I} (net : transport) (rq : request) : M I response :=
  fun s => (net (sent s) rq, State (self s) (sent s ++ [rq]) (log s)).

(** ** Operations of the interpreter *)

Module Py.

Definition type_name (v : pyval) : string :=
  match v with
  | PyNone => "NoneType" | PyBool _ => "bool" | PyInt _ => "int"
  | PyFloat _ => "float" | PyStr _ => "str" | PyList _ => "list"
  | PyTuple _ => "tuple" | PyDict _ => "dict"
  end.

(** Interpreter errors carry CPython's message, with the operand's type;
    the wording varies between versions and nothing below reads it. *)
Definition type_error {A} (what : string) (v : pyval) : result A :=
  Raise (Exc TypeError [PyStr ("'" ++ type_name v ++ "' object " ++ what)]).

(** Truth value testing: [None], [False], zero and empty containers are
    false. *)
Definition truthy (v : pyval) : bool :=
  match v with
  | PyNone => false
  | PyBool b => b
  | PyInt z => negb (z =? 0)
  | PyFloat (Finite q) => negb (Qeq_bool q 0)
  | PyFloat _ => true
  | PyStr s => negb (String.eqb s EmptyString)
  | PyList l | PyTuple l => match l with [] => false | _ => true end
  | PyDict d => match map_to_list d with [] => false | _ => true end
  end.

(** [type(v) is str]. *)
Definition is_str (v : pyval) : bool :=
  match v with PyStr _ => true | _ => false end.

(** [v == s] for a [str] [s]: only an equal string is equal to it. *)
Definition eq_str (v : pyval) (s : string) : bool :=
  match v with PyStr s' => String.eqb s' s | _ => false end.

(** [v == n] for an [int] [n]; [True] is [1], and a float is equal to an
    int of the same value. *)
Definition eq_int (v : pyval) (n : Z) : bool :=
  match v with
  | PyInt z => z =? n
  | PyBool b => (if b then 1 else 0) =? n
  | PyFloat (Finite q) => Qeq_bool q (inject_Z n)
  | _ => false
  end.

(** The characters of a string, each a string of length one. *)
Fixpoint chars (s : string) : list pyval :=
  match s with
  | EmptyString => []
  | String c s' => PyStr (String c EmptyString) :: chars s'
  end.

(** [seq[i]] on a sequence given by its items: a negative index counts
    from the end. *)
Definition index (kind : string) (items : list pyval) (i : Z) : result pyval :=
  let n := Z.of_nat (length items) in
  let j := if i <? 0 then i + n else i in
  if (0 <=? j) && (j <? n) then
    match nth_error items (Z.to_nat j) with
    | Some x => Ret x
    | None => Raise (Exc IndexError [PyStr (kind ++ " index out of range")])
    end
  else Raise (Exc IndexError [PyStr (kind ++ " index out of range")]).

(** [v[k]] for a [str] key [k]. *)
Definition getitem_str (v : pyval) (k : string) : result pyval :=
  match v with
  | PyDict d =>
      match d !! k with
      | Some x => Ret x
      | None => Raise (Exc KeyError [PyStr k])
      end
  | PyList _ | PyTuple _ | PyStr _ => type_error "indices must be integers" v
  | _ => type_error "is not subscriptable" v
  end.

(** [v[i]] for an [int] index [i]; no dict here has an [int] key. *)
Definition getitem_int (v : pyval) (i : Z) : result pyval :=
  match v with
  | PyList l => index "list" l i
  | PyTuple l => index "tuple" l i
  | PyStr s => index "string" (chars s) i
  | PyDict _ => Raise (Exc KeyError [PyInt i])
  | _ => type_error "is not subscriptable" v
  end.

(** [len(v)]. *)
Definition len (v : pyval) : result Z :=
  match v with
  | PyList l | PyTuple l => Ret (Z.of_nat (length l))
  | PyStr s => Ret (Z.of_nat (String.length s))
  | PyDict d => Ret (Z.of_nat (length (map_to_list d)))
  | _ => type_error "has no len()" v
  end.

(** The items [for x in v] visits; a dict gives its keys. *)
Definition iter (v : pyval) : result (list pyval) :=
  match v with
  | PyList l | PyTuple l => Ret l
  | PyStr s => Ret (chars s)
  | PyDict d => Ret (PyStr <$> (map_to_list d).*1)
  | _ => type_error "is not iterable" v
  end.

(** [k in v] for a [str] [k]: a key of a dict, an item of a list or a
    substring of a string. *)
Definition contains_str (k : string) (v : pyval) : result bool :=
  match v with
  | PyDict d => Ret (bool_decide (is_Some (d !! k)))
  | PyList l | PyTuple l => Ret (existsb (fun x => eq_str x k) l)
  | PyStr s => Ret (match String.index 0 k s with Some _ => true | None => false end)
  | _ => type_error "is not iterable" v
  end.

Definition upper_char (c : ascii) : ascii :=
  let n := nat_of_ascii c in
  if ((97 <=? n) && (n <=? 122))%nat then ascii_of_nat (n - 32) else c.

(** [s.upper()]: the letters [a]-[z] become [A]-[Z]. A string is its
    bytes; what Python does to letters outside ASCII is not modelled and
    such bytes are kept. *)
Fixpoint str_upper (s : string) : string :=
  match s with
  | EmptyString => EmptyString
  | String c s' => String (upper_char c) (str_upper s')
  end.

(** The method call [v.upper()]: only a string has the attribute. *)
Definition upper (v : pyval) : result pyval :=
  match v with
  | PyStr s => Ret (PyStr (str_upper s))
  | _ => Raise (Exc AttributeError
                  [PyStr ("'" ++ type_name v ++ "' object has no attribute 'upper'")])
  end.

(** Whitespace for [str.strip()]: tab to carriage return, the four
    separators 28-31 and the space. *)
Definition isspace (c : ascii) : bool :=
  let n := nat_of_ascii c in
  (((9 <=? n) && (n <=? 13)) || ((28 <=? n) && (n <=? 32)))%nat.

Fixpoint lstrip (s : string) : string :=
  match s with
  | String c s' => if isspace c then lstrip s' else s
  | EmptyString => EmptyString
  end.

Fixpoint rstrip (s : string) : string :=
  match s with
  | EmptyString => EmptyString
  | String c s' =>
      match rstrip s' with
      | EmptyString => if isspace c then EmptyString else String c EmptyString
      | r => String c r
      end
  end.

(** [s.strip()]. *)
Definition strip (s : string) : string := lstrip (rstrip s).

Definition newline : ascii := ascii_of_nat 10.

(** [s.split('\n', 1)]: at most one split, at the first newline. *)
Fixpoint split_newline_1 (s : string) : list string :=
  match s with
  | EmptyString => [EmptyString]
  | String c s' =>
      if Ascii.eqb c newline then [EmptyString; s']
      else match split_newline_1 s' with
           | first :: rest => String c first :: rest
           | [] => [String c EmptyString]
           end
  end.

(** [l[-1]] on a list of strings. *)
Definition last_item (l : list string) : result string :=
  match List.rev l with
  | x :: _ => Ret x
  | [] => Raise (Exc IndexError [PyStr "list index out of range"])
  end.

(** [e.args[0]]. *)
Definition args0 (e : exn) : result pyval := index "tuple" (exc_args e) 0.

End Py.

(** ** [json.loads]

    The decoder of the standard library, on a document held as a string:
    one JSON value with optional whitespace around it, and [ValueError]
    otherwise (also for text after the value, "Extra data"). As the
    library does, it accepts [NaN], [Infinity] and [-Infinity], keeps the
    last of two equal keys and refuses a control character in a string.
    A number with a fraction or an exponent is held by its decimal value,
    before the rounding to binary64; the adapter that calls [json.loads]
    never reads the value of a number. *)

Module Json.

Definition dquote : ascii := "034".
Definition backslash : ascii := "092".

Definition is_ws (c : ascii) : bool :=
  match c with
  | " " | "009" | "010" | "013" => true
  | _ => false
  end%char.

Fixpoint skip_ws (s : string) : string :=
  match s with
  | String c r => if is_ws c then skip_ws r else s
  | EmptyString => EmptyString
  end.

Definition digit (c : ascii) : option Z :=
  let n := nat_of_ascii c in
  if ((48 <=? n) && (n <=? 57))%nat then Some (Z.of_nat (n - 48)) else None.

Definition hex_digit (c : ascii) : option Z :=
  let n := nat_of_ascii c in
  if ((48 <=? n) && (n <=? 57))%nat then Some (Z.of_nat (n - 48))
  else if ((97 <=? n) && (n <=? 102))%nat then Some (Z.of_nat (n - 87))
  else if ((65 <=? n) && (n <=? 70))%nat then Some (Z.of_nat (n - 55))
  else None.

(** The longest run of digits at the head of [s]: its value with [acc] in
    front, how many digits it has, and what follows. *)
Fixpoint digits (acc : Z) (count : nat) (s : string) : Z * nat * string :=
  match s with
  | String c r =>
      match digit c with
      | Some d => digits (10 * acc + d) (S count) r
      | None => (acc, count, s)
      end
  | EmptyString => (acc, count, s)
  end.

(** If [s] starts with [p], what follows [p]. *)
Fixpoint after_prefix (p s : string) : option string :=
  match p, s with
  | EmptyString, _ => Some s
  | String a p', String b s' => if Ascii.eqb a b then after_prefix p' s' else None
  | String _ _, EmptyString => None
  end.

(** A number: an optional minus sign, then [0] or a run of digits that
    does not start with [0], then an optional fraction (a dot and at least
    one digit), then an optional exponent ([e] or [E], an optional sign and
    at least one digit). It is an [int] when it has neither fraction nor
    exponent. *)
Definition parse_number (s : string) : option (pyval * string) :=
  let '(neg, s1) :=
    match s with
    | String "-"%char r => (true, r)
    | _ => (false, s)
    end in
  let int_part :=
    match s1 with
    | String "0"%char r => Some (0, r)
    | String c r =>
        match digit c with
        | Some _ => let '(n, _, r') := digits 0 0 s1 in Some (n, r')
        | None => None
        end
    | EmptyString => None
    end in
  match int_part with
  | None => None
  | Some (n, s2) =>
      let '(frac, s3) :=
        match s2 with
        | String "."%char r =>
            let '(m, k, r') := digits n 0 r in
            match k with O => (None, s2) | _ => (Some (m, k), r') end
        | _ => (None, s2)
        end in
      let '(expo, s4) :=
        match s3 with
        | String ("e" | "E")%char r =>
            let '(eneg, r1) :=
              match r with
              | String "-"%char r' => (true, r')
              | String "+"%char r' => (false, r')
              | _ => (false, r)
              end in
            let '(e, k, r2) := digits 0 0 r1 in
            match k with O => (None, s3) | _ => (Some (if eneg then - e else e), r2) end
        | _ => (None, s3)
        end in
      let sign (z : Z) := if neg then - z else z in
      match frac, expo with
      | None, None => Some (PyInt (sign n), s4)
      | _, _ =>
          let '(mant, scale) :=
            match frac with Some (m, k) => (m, Z.of_nat k) | None => (n, 0) end in
          let e := match expo with Some e => e | None => 0 end in
          let p := e - scale in
          let q := if 0 <=? p then inject_Z (sign mant * 10 ^ p)
                   else Qmake (sign mant) (Z.to_pos (10 ^ (- p))) in
          Some (PyFloat (Finite q), s4)
      end
  end.

Definition byte_char (z : Z) : ascii := ascii_of_nat (Z.to_nat z).

(** The UTF-8 bytes of a code point. *)
Definition utf8 (cp : Z) : string :=
  if cp <? 128 then String (byte_char cp) EmptyString
  else if cp <? 2048 then
    String (byte_char (192 + cp / 64)) (String (byte_char (128 + cp mod 64)) EmptyString)
  else if cp <? 65536 then
    String (byte_char (224 + cp / 4096))
      (String (byte_char (128 + (cp / 64) mod 64))
         (String (byte_char (128 + cp mod 64)) EmptyString))
  else
    String (byte_char (240 + cp / 262144))
      (String (byte_char (128 + (cp / 4096) mod 64))
         (String (byte_char (128 + (cp / 64) mod 64))
            (String (byte_char (128 + cp mod 64)) EmptyString))).

(** Four hexadecimal digits. *)
Definition hex4 (s : string) : option (Z * string) :=
  match s with
  | String a (String b (String c (String d r))) =>
      match hex_digit a, hex_digit b, hex_digit c, hex_digit d with
      | Some x, Some y, Some z, Some w => Some (((x * 16 + y) * 16 + z) * 16 + w, r)
      | _, _, _, _ => None
      end
  | _ => None
  end.

(** The rest of a string literal, after its opening quote. *)
Fixpoint parse_string (fuel : nat) (s : string) : option (string * string) :=
  match fuel with
  | O => None
  | S f =>
      match s with
      | EmptyString => None
      | String c r =>
          if Ascii.eqb c dquote then Some (EmptyString, r)
          else if Ascii.eqb c backslash then
            match r with
            | String e r' =>
                let simple (x : ascii) :=
                  match parse_string f r' with
                  | Some (t, rest) => Some (String x t, rest)
                  | None => None
                  end in
                match e with
                | "b"%char => simple "008"%char
                | "f"%char => simple "012"%char
                | "n"%char => simple "010"%char
                | "r"%char => simple "013"%char
                | "t"%char => simple "009"%char
                | "/"%char => simple "/"%char
                | "u"%char =>
                    match hex4 r' with
                    | None => None
                    | Some (u, r'') =>
                        let lone :=
                          match parse_string f r'' with
                          | Some (t, rest) => Some (utf8 u ++ t, rest)
                          | None => None
                          end in
                        if (55296 <=? u) && (u <=? 56319) then
                          match r'' with
                          | String b1 (String "u"%char r3) =>
                              if Ascii.eqb b1 backslash then
                                match hex4 r3 with
                                | None => None
                                | Some (u2, r4) =>
                                    if (56320 <=? u2) && (u2 <=? 57343) then
                                      match parse_string f r4 with
                                      | Some (t, rest) =>
                                          Some (utf8 (65536 + (u - 55296) * 1024
                                                      + (u2 - 56320)) ++ t, rest)
                                      | None => None
                                      end
                                    else lone
                                end
                              else lone
                          | _ => lone
                          end
                        else lone
                    end
                | _ =>
                    if Ascii.eqb e dquote then simple dquote
                    else if Ascii.eqb e backslash then simple backslash
                    else None
                end
            | EmptyString => None
            end
          else if (nat_of_ascii c <? 32)%nat then None
          else
            match parse_string f r with
            | Some (t, rest) => Some (String c t, rest)
            | None => None
            end
      end
  end.

(** A value at the head of [s] (no whitespace before it), and what
    follows it. *)
Fixpoint parse_value (fuel : nat) (s : string) : option (pyval * string) :=
  match fuel with
  | O => None
  | S f =>
      match s with
      | EmptyString => None
      | String c r =>
          if Ascii.eqb c dquote then
            match parse_string f r with
            | Some (t, rest) => Some (PyStr t, rest)
            | None => None
            end
          else if Ascii.eqb c "["%char then
            match skip_ws r with
            | String "]"%char rest => Some (PyList [], rest)
            | r' => parse_elements f r' []
            end
          else if Ascii.eqb c "{"%char then
            match skip_ws r with
            | String "}"%char rest => Some (PyDict ∅, rest)
            | r' => parse_members f r' ∅
            end
          else
            match after_prefix "null" s, after_prefix "true" s, after_prefix "false" s,
                  after_prefix "NaN" s, after_prefix "Infinity" s,
                  after_prefix "-Infinity" s with
            | Some rest, _, _, _, _, _ => Some (PyNone, rest)
            | _, Some rest, _, _, _, _ => Some (PyBool true, rest)
            | _, _, Some rest, _, _, _ => Some (PyBool false, rest)
            | _, _, _, Some rest, _, _ => Some (PyFloat NaN, rest)
            | _, _, _, _, Some rest, _ => Some (PyFloat (Infinity false), rest)
            | _, _, _, _, _, Some rest => Some (PyFloat (Infinity true), rest)
            | _, _, _, _, _, _ => parse_number s
            end
      end
  end
with parse_elements (fuel : nat) (s : string) (acc : list pyval) : option (pyval * string) :=
  match fuel with
  | O => None
  | S f =>
      match parse_value f s with
      | None => None
      | Some (v, r) =>
          match skip_ws r with
          | String "]"%char rest => Some (PyList (acc ++ [v]), rest)
          | String ","%char rest => parse_elements f (skip_ws rest) (acc ++ [v])
          | _ => None
          end
      end
  end
with parse_members (fuel : nat) (s : string) (acc : gmap string pyval)
    : option (pyval * string) :=
  match fuel with
  | O => None
  | S f =>
      match s with
      | String c r =>
          if Ascii.eqb c dquote then
            match parse_string f r with
            | None => None
            | Some (k, r1) =>
                match skip_ws r1 with
                | String ":"%char r2 =>
                    match parse_value f (skip_ws r2) with
                    | None => None
                    | Some (v, r3) =>
                        match skip_ws r3 with
                        | String "}"%char rest => Some (PyDict (<[k:=v]> acc), rest)
                        | String ","%char rest =>
                            parse_members f (skip_ws rest) (<[k:=v]> acc)
                        | _ => None
                        end
                    end
                | _ => None
                end
            end
          else None
      | EmptyString => None
      end
  end.

(** [json.loads(s)]; the message of the error is abridged. *)
Definition loads (s : string) : result pyval :=
  let fuel := (2 * String.length s + 2)%nat in
  match parse_value fuel (skip_ws s) with
  | None => Raise (Exc ValueError [PyStr "Expecting value"])
  | Some (v, rest) =>
      match skip_ws rest with
      | EmptyString => Ret v
      | _ => Raise (Exc ValueError [PyStr "Extra data"])
      end
  end.

End Json.

(** Text with a double quote on each side: the way the examples below
    write the strings of a JSON document. *)
Definition quoted (s : string) : string :=
  String Json.dquote s ++ String Json.dquote EmptyString.

(** ** Expressions that may raise *)

#[export] Instance result_ret : MRet result := fun A a => Ret a.
#[export] Instance result_bind : MBind result := fun A B f r =>
  match r with
  | Ret a => f a
  | Raise e => Raise e
  end.

(** [r.raise_for_status()]: [HTTPError] for a status from 400 to 599. *)
Definition raise_for_status (r : response) : result unit :=
  if (400 <=? status_code r) && (status_code r <? 600)
  then Raise (Exc HTTPError [PyStr "HTTP Error"])
  else Ret tt.

(** [requests.codes]. *)
Definition codes_unauthorized : Z := 401.
Definition codes_forbidden : Z := 403.

(** ** GoogleSTT *)

Module GoogleSTT.

Definition SLUG : pyval := PyStr "google".

(** The attributes of an instance. *)
Record t : Type :=
  Build { _request_url : option url; _language : pyval; _api_key : pyval }.

Definition request_url (self : t) : option url := _request_url self.
Definition language (self : t) : pyval := _language self.
Definition api_key (self : t) : pyval := _api_key self.

Definition _regenerate_request_url (self : t) : t :=
  if Py.truthy (api_key self) && Py.truthy (language self) then
    let query := [("output", PyStr "json"); ("client", PyStr "chromium");
                  ("key", api_key self); ("lang", language self);
                  ("maxresults", PyInt 6); ("pfilter", PyInt 2)] in
    Build (Some (UrlParts "https" "www.google.com" "/speech-api/v2/recognize" query))
          (_language self) (_api_key self)
  else Build None (_language self) (_api_key self).

(** The setters of the properties [language] and [api_key]. *)
Definition set_language (value : pyval) (self : t) : t :=
  _regenerate_request_url (Build (_request_url self) value (_api_key self)).

Definition set_api_key (value : pyval) (self : t) : t :=
  _regenerate_request_url (Build (_request_url self) (_language self) value).

(** [GoogleSTT(api_key=None, language='en-us')]. *)
Definition __init__ (api_key language : pyval) : t :=
  set_api_key api_key (set_language language (Build None PyNone PyNone)).

Definition default_api_key : pyval := PyNone.
Definition default_language : pyval := PyStr "en-us".

(** The body of the second [try]: the last document of the response
    text, then the transcripts of the first result. *)
Definition parse (r : response) : result (list pyval) :=
  doc ← Py.last_item (Py.split_newline_1 (Py.strip (text r)));
  response ← Json.loads doc;
  result ← Py.getitem_str response "result";
  n ← Py.len result;
  if n =? 0 then Raise (Exc ValueError [PyStr "Nothing has been transcribed."])
  else
    result ← Py.getitem_str response "result";
    first ← Py.getitem_int result 0;
    alternative ← Py.getitem_str first "alternative";
    alts ← Py.iter alternative;
    mapM (fun alt => Py.getitem_str alt "transcript") alts.

Definition transcribe (net : transport) (fp : audio_file) : M t pyval :=
  self ← get_self;
  if negb (Py.truthy (api_key self)) then
    logger CRITICAL "API key missing, transcription request aborted." [];;
    mret (PyList [])
  else if negb (Py.truthy (language self)) then
    logger CRITICAL "Language info missing, transcription request aborted." [];;
    mret (PyList [])
  else
    frame_rate ← lift (getframerate fp);
    let data := read fp in
    let headers := [("content-type", HFormat "audio/l16; rate=%s" frame_rate)] in
    r ← post net (Request (request_url self) (Bytes data) headers);
    try_except_else (lift (raise_for_status r))
      (fun e =>
         if isinstance e HTTPError then Some (
           logger CRITICAL "Request failed with http status %d" [PyInt (status_code r)];;
           (if status_code r =? codes_forbidden
            then logger WARNING
                   "Status 403 is probably caused by an invalid Google API key." []
            else mret tt);;
           mret (PyList []))
         else None)
      (fun _ =>
         try_except_else (lift (parse r))
           (fun e =>
              if isinstance e ValueError then Some (
                msg ← lift (Py.args0 e);
                logger WARNING "Empty response: %s" [msg];;
                mret (PyList []))
              else if isinstance e KeyError || isinstance e IndexError then Some (
                logger WARNING "Cannot parse response." [];;
                mret (PyList []))
              else None)
           (fun results =>
              results ← lift (mapM Py.upper results);
              logger INFO "Transcribed: %r" [PyTuple results];;
              mret (PyTuple results))).

End GoogleSTT.

(** ** AttSTT *)

Module AttSTT.

Definition SLUG : pyval := PyStr "att".

Record t : Type :=
  Build { _token : pyval; app_key : pyval; app_secret : pyval }.

(** [AttSTT(app_key, app_secret)]. *)
Definition __init__ (app_key app_secret : pyval) : t :=
  Build PyNone app_key app_secret.

Definition set_token (value : pyval) (self : t) : t :=
  Build value (app_key self) (app_secret self).

Definition token_url : url := UrlStr "https://api.att.com/oauth/v4/token".
Definition speech_url : url := UrlStr "https://api.att.com/speech/v3/speechToText".

(** The request of the client-credentials exchange. *)
Definition token_request (self : t) : request :=
  Request (Some token_url)
    (Form [("client_id", app_key self); ("client_secret", app_secret self);
           ("scope", PyStr "SPEECH"); ("grant_type", PyStr "client_credentials")])
    [("content-type", HStr "application/x-www-form-urlencoded");
     ("accept", HStr "application/json")].

(** The property [token]: the cached token, fetched first when there is
    none. *)
Definition token (net : transport) : M t pyval :=
  self ← get_self;
  if negb (Py.truthy (_token self)) then
    r ← post net (token_request self);
    payload ← lift (json r);
    access_token ← lift (Py.getitem_str payload "access_token");
    set_self (set_token access_token);;
    mret access_token
  else mret (_token self).

(** The speech request sent with the token [tok]. *)
Definition speech_request (tok : pyval) (data : list Byte.byte) : request :=
  Request (Some speech_url) (Bytes data)
    [("authorization", HFormat "Bearer %s" tok);
     ("accept", HStr "application/json");
     ("content-type", HStr "audio/wav")].

Definition _get_response (net : transport) (data : list Byte.byte) : M t response :=
  tok ← token net;
  post net (speech_request tok data).

(** The key [sorted] orders by, when it is a finite number ([True] is 1). *)
Definition number (v : pyval) : option Q :=
  match v with
  | PyBool b => Some (inject_Z (if b then 1 else 0))
  | PyInt z => Some (inject_Z z)
  | PyFloat (Finite q) => Some q
  | _ => None
  end.

(** [x] goes in front of the first item whose key is not above its own. *)
Fixpoint insert_desc {A} (key : A -> Q) (x : A) (l : list A) : list A :=
  match l with
  | [] => [x]
  | y :: l' => if Qle_bool (key y) (key x) then x :: y :: l' else y :: insert_desc key x l'
  end.

(** Descending order that keeps items of equal keys in their order, which
    is what [sorted(..., reverse=True)] returns: the sort is stable. *)
Definition sort_desc {A} (key : A -> Q) (l : list A) : list A :=
  foldr (insert_desc key) [] l.

(** The pair with its key as a number. *)
Definition keyed (x : pyval * pyval) : option (pyval * Q) :=
  match number x.2 with
  | Some q => Some (x.1, q)
  | None => None
  end.

(** [sorted(results, key=lambda x: x[1], reverse=True)]. Nothing is
    compared in a list of fewer than two items. Keys that are finite
    numbers are ordered as numbers; for any other key the model answers
    with the [TypeError] of Python 3 for values that do not order, and no
    statement below is about such a list. *)
Definition sorted_reverse (results : list (pyval * pyval)) : result (list pyval) :=
  match results with
  | [] => Ret []
  | [x] => Ret [x.1]
  | _ =>
      match mapM keyed results with
      | Some l => Ret ((sort_desc snd l).*1)
      | None => Raise (Exc TypeError [PyStr "'<' not supported"])
      end
  end.

(** The body of the inner [try]. *)
Definition parse (r : response) : result (list (pyval * pyval)) :=
  payload ← json r;
  recognition ← Py.getitem_str payload "Recognition";
  status ← Py.getitem_str recognition "Status";
  if negb (Py.eq_str status "OK") then
    status ← Py.getitem_str recognition "Status";
    Raise (Exc ValueError [status])
  else
    nbest ← Py.getitem_str recognition "NBest";
    items ← Py.iter nbest;
    mapM (fun x =>
            hypothesis ← Py.getitem_str x "Hypothesis";
            confidence ← Py.getitem_str x "Confidence";
            mret (hypothesis, confidence)) items.

Definition transcribe (net : transport) (fp : audio_file) : M t pyval :=
  let data := read fp in
  r ← _get_response net data;
  r ← (if status_code r =? codes_unauthorized then
         logger WARNING
           "OAuth access token invalid, generating a new one and retrying..." [];;
         set_self (set_token PyNone);;
         _get_response net data
       else mret r);
  try_except_else (lift (raise_for_status r))
    (fun e =>
       if isinstance e HTTPError then Some (
         logger CRITICAL "Request failed with response: %r" [PyStr (text r)];;
         mret (PyList []))
       else if isinstance e RequestException then Some (
         logger CRITICAL "Request failed." [];;
         mret (PyList []))
       else None)
    (fun _ =>
       try_except_else (lift (parse r))
         (fun e =>
            if isinstance e ValueError then Some (
              status ← lift (Py.args0 e);
              logger DEBUG "Recognition failed with status: %s" [status];;
              mret (PyList []))
            else if isinstance e KeyError then Some (
              logger CRITICAL "Cannot parse response." [];;
              mret (PyList []))
            else None)
         (fun results =>
            ordered ← lift (sorted_reverse results);
            transcribed ← lift (mapM Py.upper ordered);
            logger INFO "Transcribed: %r" [PyList transcribed];;
            mret (PyList transcribed))).

End AttSTT.

(** ** WitAiSTT *)

Module WitAiSTT.

Definition SLUG : pyval := PyStr "witai".

Record t : Type :=
  Build { _token : pyval; _headers : list (string * header_value) }.

Definition token (self : t) : pyval := _token self.
Definition headers (self : t) : list (string * header_value) := _headers self.

(** The setter of the property [token]. *)
Definition set_token (value : pyval) (self : t) : t :=
  Build value
    [("Authorization", HFormat "Bearer %s" value);
     ("accept", HStr "application/json");
     ("Content-Type", HStr "audio/wav")].

(** [WitAiSTT(access_token)]. *)
Definition __init__ (access_token : pyval) : t :=
  set_token access_token (Build PyNone []).

Definition speech_url : url := UrlStr "https://api.wit.ai/speech?v=20150101".

Definition transcribe (net : transport) (fp : audio_file) : M t pyval :=
  self ← get_self;
  let data := read fp in
  r ← post net (Request (Some speech_url) (Bytes data) (headers self));
  try_except_else
    (lift (raise_for_status r;;
           payload ← json r;
           Py.getitem_str payload "_text"))
    (fun e =>
       if isinstance e HTTPError then Some (
         logger CRITICAL "Request failed with response: %r" [PyStr (text r)];;
         mret (PyList []))
       else if isinstance e RequestException then Some (
         logger CRITICAL "Request failed." [];;
         mret (PyList []))
       else if isinstance e ValueError then Some (
         msg ← lift (Py.args0 e);
         logger CRITICAL "Cannot parse response: %s" [msg];;
         mret (PyList []))
       else if isinstance e KeyError then Some (
         logger CRITICAL "Cannot parse response." [];;
         mret (PyList []))
       else None)
    (fun text =>
       transcribed ← (if Py.truthy text then
                        up ← lift (Py.upper text);
                        mret [up]
                      else mret []);
       logger INFO "Transcribed: %r" [PyList transcribed];;
       mret (PyList transcribed)).

End WitAiSTT.

(** ** Configuration and instantiation *)

(** The keyword arguments of a call of [cls] with the dict [config]
    unpacked. *)
Abbreviation kwargs := (gmap string pyval).

(** A keyword that no parameter of [__init__] has is a [TypeError]. *)
Definition check_keywords (params : list string) (config : kwargs) : result unit :=
  if forallb (fun k => existsb (String.eqb k) params) (map_to_list config).*1
  then Ret tt
  else Raise (Exc TypeError [PyStr "__init__() got an unexpected keyword argument"]).

(** The value of a parameter: the keyword given, else the default, and a
    [TypeError] when it has neither. *)
Definition keyword (config : kwargs) (name : string) (default : option pyval)
    : result pyval :=
  match config !! name, default with
  | Some v, _ => Ret v
  | None, Some d => Ret d
  | None, None =>
      Raise (Exc TypeError [PyStr ("__init__() missing 1 required argument: '"
                                   ++ name ++ "'")])
  end.

(** [profile.yml]: [None] when the file does not exist, else what
    [yaml.safe_load] returns. *)
Definition profile : Type := option pyval.

(** [config[field] = section[key]] when [key in section]. *)
Definition copy_field (section : pyval) (key field : string) (config : kwargs)
    : result kwargs :=
  present ← Py.contains_str key section;
  if (present : bool) then
    v ← Py.getitem_str section key;
    mret (<[field := v]> config)
  else mret config.

Inductive provider : Type := Google | Att | WitAi.

Inductive instance : Type :=
  | GoogleInstance (i : GoogleSTT.t)
  | AttInstance (i : AttSTT.t)
  | WitAiInstance (i : WitAiSTT.t).

(** The class method [get_config] of each provider. *)
Definition get_config (cls : provider) (p : profile) : result kwargs :=
  match p with
  | None => Ret ∅
  | Some profile =>
      match cls with
      | Google =>
          has_keys ← Py.contains_str "keys" profile;
          if (has_keys : bool) then
            keys ← Py.getitem_str profile "keys";
            copy_field keys "GOOGLE_SPEECH" "api_key" ∅
          else mret ∅
      | Att =>
          has_section ← Py.contains_str "att-stt" profile;
          if (has_section : bool) then
            section ← Py.getitem_str profile "att-stt";
            config ← copy_field section "app_key" "app_key" ∅;
            section ← Py.getitem_str profile "att-stt";
            copy_field section "app_secret" "app_secret" config
          else mret ∅
      | WitAi =>
          has_section ← Py.contains_str "witai-stt" profile;
          if (has_section : bool) then
            section ← Py.getitem_str profile "witai-stt";
            copy_field section "access_token" "access_token" ∅
          else mret ∅
      end
  end.

(** The call of [cls] with [config] unpacked as keywords, with the
    parameters and defaults of each [__init__]. *)
Definition instantiate (cls : provider) (config : kwargs) : result instance :=
  match cls with
  | Google =>
      check_keywords ["api_key"; "language"] config;;
      api_key ← keyword config "api_key" (Some GoogleSTT.default_api_key);
      language ← keyword config "language" (Some GoogleSTT.default_language);
      mret (GoogleInstance (GoogleSTT.__init__ api_key language))
  | Att =>
      check_keywords ["app_key"; "app_secret"] config;;
      app_key ← keyword config "app_key" None;
      app_secret ← keyword config "app_secret" None;
      mret (AttInstance (AttSTT.__init__ app_key app_secret))
  | WitAi =>
      check_keywords ["access_token"] config;;
      access_token ← keyword config "access_token" None;
      mret (WitAiInstance (WitAiSTT.__init__ access_token))
  end.

(** [cls.get_instance(vocabulary_name, phrases)]; no provider here has a
    [VOCABULARY_TYPE]. *)
Definition get_instance (cls : provider) (p : profile) : result instance :=
  config ← get_config cls p;
  instantiate cls config.

(** The credentials each provider needs, as its docstring lists them. *)
Definition required_fields (cls : provider) : list string :=
  match cls with
  | Google => ["api_key"]
  | Att => ["app_key"; "app_secret"]
  | WitAi => ["access_token"]
  end.

(** [instance.transcribe(fp)] on a fresh state. *)
Definition transcribe (net : transport) (i : instance) (fp : audio_file)
    : result pyval * list request * list log_record :=
  match i with
  | GoogleInstance g =>
      let '(r, s) := GoogleSTT.transcribe net fp (State g [] []) in (r, sent s, log s)
  | AttInstance a =>
      let '(r, s) := AttSTT.transcribe net fp (State a [] []) in (r, sent s, log s)
  | WitAiInstance w =>
      let '(r, s) := WitAiSTT.transcribe net fp (State w [] []) in (r, sent s, log s)
  end.

(** ** The registry and the selector *)

(** A class of the hierarchy under [AbstractSTTEngine]: its qualified
    name (its identity), what the attribute [SLUG] resolves to ([None]
    when [hasattr] is false), what [is_available()] answers, and
    [__subclasses__()] in the order the subclasses were defined. *)
Inductive klass : Type :=
  Class (name : string) (slug : option pyval) (available : bool)
        (subclasses : list klass).

Definition __name__ (c : klass) : string := let 'Class n _ _ _ := c in n.
Definition class_SLUG (c : klass) : option pyval := let 'Class _ s _ _ := c in s.
Definition is_available (c : klass) : bool := let 'Class _ _ a _ := c in a.
Definition __subclasses__ (c : klass) : list klass := let 'Class _ _ _ l := c in l.

(** A [set] of classes, held as the list of its distinct members. *)
Definition set_add (c : klass) (s : list klass) : list klass :=
  if existsb (fun d => String.eqb (__name__ d) (__name__ c)) s then s else s ++ [c].

Definition set_update (s new : list klass) : list klass :=
  foldl (fun acc c => set_add c acc) s new.

(** The local function [get_subclasses] of [get_engines]. *)
Fixpoint get_subclasses (cls : klass) : list klass :=
  let 'Class _ _ _ subs := cls in
  (fix loop (l : list klass) (subclasses : list klass) : list klass :=
     match l with
     | [] => subclasses
     | subclass :: l' =>
         loop l' (set_update (set_add subclass subclasses) (get_subclasses subclass))
     end) subs [].

(** [get_engines()]. [list(s)] visits a set in the order of its hash
    table, which the code does not fix: [order] is that order, some
    arrangement of the members. *)
Definition get_engines (order : list klass -> list klass) (root : klass) : list klass :=
  List.filter (fun tts_engine => match class_SLUG tts_engine with
                                 | Some slug => Py.truthy slug
                                 | None => false
                                 end)
              (order (get_subclasses root)).

Definition has_slug (slug : string) (engine : klass) : bool :=
  match class_SLUG engine with
  | Some v => Py.eq_str v slug
  | None => false
  end.

Definition invalid_slug (slug : pyval) : exn :=
  Exc TypeError [PyStr "Invalid slug '%s'"; slug].

Definition no_engine_found (slug : string) : exn :=
  Exc ValueError [PyStr ("No STT engine found for slug '" ++ slug ++ "'")].

Definition engine_not_available (slug : string) : exn :=
  Exc ValueError [PyStr ("STT engine '" ++ slug ++ "' is not available (due to "
                         ++ "missing dependencies, missing dependencies, etc.)")].

Definition multiple_engines_warning (slug : string) : string :=
  "WARNING: Multiple STT engines found for slug '" ++ slug ++ "'. "
  ++ "This is most certainly a bug.".

(** [get_engine_by_slug(slug)]: what it returns or raises, and the lines
    it prints. *)
Definition get_engine_by_slug (order : list klass -> list klass) (root : klass)
    (slug : pyval) : result klass * list string :=
  if negb (Py.truthy slug) || negb (Py.is_str slug) then (Raise (invalid_slug slug), [])
  else
    match slug with
    | PyStr s =>
        let selected_engines := List.filter (has_slug s) (get_engines order root) in
        match selected_engines with
        | [] => (Raise (no_engine_found s), [])
        | engine :: others =>
            let printed :=
              match others with
              | [] => []
              | _ => [multiple_engines_warning s]
              end in
            if negb (is_available engine) then (Raise (engine_not_available s), printed)
            else (Ret engine, printed)
        end
    | _ => (Raise (invalid_slug slug), [])
    end.

(** The error taxonomy of the specification, as the exceptions the
    selector raises for each: the code has no class of its own for them. *)
Definition InvalidArgument (e : exn) : Prop :=
  exc_class e = TypeError.

Definition LookupError (e : exn) : Prop :=
  exists slug, e = no_engine_found slug.

Definition UnavailableError (e : exn) : Prop :=
  exists slug, e = engine_not_available slug.

(** The hierarchy the module itself defines. *)
Definition AbstractSTTEngine (network : bool) : klass :=
  Class "AbstractSTTEngine" None true
    [Class "GoogleSTT" (Some GoogleSTT.SLUG) network [];
     Class "AttSTT" (Some AttSTT.SLUG) network [];
     Class "WitAiSTT" (Some WitAiSTT.SLUG) network []].

(** ** Inputs of the examples *)

(** A hierarchy in which two providers claim the slug [dup]. *)
Definition FirstDup : klass := Class "FirstDup" (Some (PyStr "dup")) true [].
Definition SecondDup : klass := Class "SecondDup" (Some (PyStr "dup")) true [].
Definition dup_root : klass := Class "AbstractSTTEngine" None true [FirstDup; SecondDup].

(** Unfolds the monad, so that a body is evaluated step by step. *)
Ltac run :=
  unfold mbind, M_bind, mret, M_ret, result_bind, result_ret, get_self, set_self,
    post, logger, lift, raise, try_except_else;
  simpl.

(** Splits on every outcome of handling a response of the AT&T adapter:
    the status, the parse, the sort, the upper-casing and the [except]
    clause that matches. *)
Ltac response_cases :=
  repeat (simpl;
          match goal with
          | |- context [raise_for_status ?r] =>
              destruct (raise_for_status r) as [[]|] eqn:?
          | |- context [AttSTT.parse ?r] => destruct (AttSTT.parse r) eqn:?
          | |- context [AttSTT.sorted_reverse ?r] =>
              destruct (AttSTT.sorted_reverse r) eqn:?
          | |- context [mapM Py.upper ?l] => destruct (mapM Py.upper l) eqn:?
          | |- context [isinstance ?e ?c] => destruct (isinstance e c) eqn:?
          | |- context [Py.args0 ?e] => destruct (Py.args0 e) eqn:?
          end).

(** A transport that answers every request with [r]. *)
Definition answer (r : response) : transport := fun _ _ => Ret r.

(** A transport on which every request fails with the exception [e]. *)
Definition failing (e : exn) : transport := fun _ _ => Raise e.

(** The response of a server that sends [body] with the status [code]:
    [r.json()] decodes the body. *)
Definition http_response (code : Z) (body : string) : response :=
  Response code body (Json.loads body).

Definition some_audio : audio_file := AudioFile (Ret (PyInt 16000)) [].

(** The documents of the examples of the specification. *)
Definition newline_str : string := String Py.newline EmptyString.

Definition empty_result_document : string := "{" ++ quoted "result" ++ ":[]}".

Definition hello_document : string :=
  "{" ++ quoted "result" ++ ":[{" ++ quoted "alternative" ++ ":[{"
  ++ quoted "transcript" ++ ":" ++ quoted "hello" ++ "}]}]}".



Definition three_documents : string :=
  empty_result_document ++ newline_str ++ empty_result_document ++ newline_str
  ++ hello_document.

Fixpoint has_newline (s : string) : bool :=
  match s with
  | EmptyString => false
  | String c s' => Ascii.eqb c Py.newline || has_newline s'
  end.

(** A Google instance with an API key, before its first call. *)
Definition google : state GoogleSTT.t :=
  State (GoogleSTT.__init__ (PyStr "KEY") GoogleSTT.default_language) [] [].

(** The request [GoogleSTT.transcribe] sends for [fp] with the frame rate
    [rate]. *)
Definition google_request (self : GoogleSTT.t) (fp : audio_file) (rate : pyval)
    : request :=
  Request (GoogleSTT.request_url self) (Bytes (read fp))
          [("content-type", HFormat "audio/l16; rate=%s" rate)].

(** An AT&T instance before its first call: no token is cached. *)
Definition att : state AttSTT.t := State (AttSTT.__init__ (PyStr "KEY") (PyStr "SECRET")) [] [].

(** A transport for the AT&T adapter: the token endpoint grants the token
    [TOKEN], and every speech request is answered with [speech]. *)
Definition is_token_request (rq : request) : bool :=
  match req_url rq with
  | Some (UrlStr u) => String.eqb u "https://api.att.com/oauth/v4/token"
  | _ => false
  end.

Definition token_response (tok : pyval) : response :=
  Response 200 EmptyString (Ret (PyDict {[ "access_token" := tok ]})).

Definition att_transport (speech : response) : transport := fun _ rq =>
  if is_token_request rq then Ret (token_response (PyStr "TOKEN")) else Ret speech.

(** The response to a request whose token is refused. *)
Definition unauthorized : response :=
  Response 401 EmptyString (Raise (Exc ValueError [PyStr "Expecting value"])).








(** ** Definitions for the further properties *)



(** The Google adapter has its credentials, [fp] is a WAV file with the
    frame rate [rate], and the transport answers the request with [r]. *)
Definition answered (net : transport) (fp : audio_file) (s : state GoogleSTT.t)
    (rate : pyval) (r : response) : Prop :=
  Py.truthy (GoogleSTT.api_key (self s)) = true /\
  Py.truthy (GoogleSTT.language (self s)) = true /\
  getframerate fp = Ret rate /\
  net (sent s) (google_request (self s) fp rate) = Ret r.


(** Splits on every outcome of a call of the Google adapter. *)
Ltac google_cases :=
  repeat (simpl;
          match goal with
          | |- context [Py.truthy ?v] => destruct (Py.truthy v) eqn:?
          | |- context [getframerate ?fp] => destruct (getframerate fp) eqn:?
          | |- context [raise_for_status ?r] =>
              destruct (raise_for_status r) as [[]|] eqn:?
          | |- context [GoogleSTT.parse ?r] => destruct (GoogleSTT.parse r) eqn:?
          | |- context [mapM Py.upper ?l] => destruct (mapM Py.upper l) eqn:?
          | |- context [isinstance ?e ?c] => destruct (isinstance e c) eqn:?
          | |- context [Py.args0 ?e] => destruct (Py.args0 e) eqn:?
          | |- context [status_code ?r =? codes_forbidden] =>
              destruct (status_code r =? codes_forbidden) eqn:?
          end).

(** The instances of [WitAiSTT] a program can hold: made by [__init__],
    changed through the setter of [token] only. *)
Inductive wit_configured : WitAiSTT.t -> Prop :=
  | wit_configured_init (access_token : pyval) :
      wit_configured (WitAiSTT.__init__ access_token)
  | wit_configured_token (value : pyval) (w : WitAiSTT.t) :
      wit_configured w -> wit_configured (WitAiSTT.set_token value w).

(** The request of the Wit.ai adapter for the token [tok]. *)
Definition wit_request (tok : pyval) (fp : audio_file) : request :=
  Request (Some WitAiSTT.speech_url) (Bytes (read fp))
    [("Authorization", HFormat "Bearer %s" tok);
     ("accept", HStr "application/json");
     ("Content-Type", HStr "audio/wav")].

(** Splits on every outcome of a call of the Wit.ai adapter. *)
Ltac wit_cases :=
  repeat (simpl;
          match goal with
          | |- context [raise_for_status ?r] =>
              destruct (raise_for_status r) as [[]|] eqn:?
          | |- context [json ?r] => destruct (json r) eqn:?
          | |- context [Py.getitem_str ?v ?k] => destruct (Py.getitem_str v k) eqn:?
          | |- context [Py.truthy ?v] => destruct (Py.truthy v) eqn:?
          | |- context [Py.upper ?v] => destruct (Py.upper v) eqn:?
          | |- context [isinstance ?e ?c] => destruct (isinstance e c) eqn:?
          | |- context [Py.args0 ?e] => destruct (Py.args0 e) eqn:?
          end).

(** The AT&T adapter gets the token [tok], which leaves the state [s1],
    and its speech request is answered with [r], whose status is no
    error. *)
Definition att_answered (net : transport) (fp : audio_file) (s s1 : state AttSTT.t)
    (tok : pyval) (r : response) : Prop :=
  AttSTT.token net s = (Ret tok, s1) /\
  net (sent s1) (AttSTT.speech_request tok (read fp)) = Ret r /\
  raise_for_status r = Ret tt.

(** [descendant c d]: the class [d] is below [c] in the hierarchy, at any
    depth. *)
Inductive descendant : klass -> klass -> Prop :=
  | descendant_child (c sub : klass) :
      In sub (__subclasses__ c) -> descendant c sub
  | descendant_below (c sub d : klass) :
      In sub (__subclasses__ c) -> descendant sub d -> descendant c d.

(** A class of the name [n] is a member of the set [s]. *)
Definition listed (n : string) (s : list klass) : Prop := n ∈ __name__ <$> s.

(** A value that is no container: [None], a boolean or a number. *)
Definition scalar (v : pyval) : Prop :=
  match v with
  | PyNone | PyBool _ | PyInt _ | PyFloat _ => True
  | _ => False
  end.

(** A file that is no WAV file: [wave.open] raises. *)
Definition not_wav : audio_file :=
  AudioFile (Raise (Exc wave_Error [PyStr "file does not start with RIFF id"])) [].

(** The response of a server that fails; its body is no JSON. *)
Definition server_error : response :=
  Response 500 "Internal Server Error" (Raise (Exc ValueError [PyStr "Expecting value"])).


(** A Wit.ai instance before its first call. *)
Definition wit : state WitAiSTT.t := State (WitAiSTT.__init__ (PyStr "TOKEN")) [] [].

(** The AT&T instance [att] after it fetched the token [TOKEN]. *)
Definition att_with_token : state AttSTT.t :=
  State (AttSTT.set_token (PyStr "TOKEN") (self att)) [AttSTT.token_request (self att)] [].



Definition att_profile_without_secret : gmap string pyval :=
  {[ "att-stt" := PyDict {[ "app_key" := PyStr "KEY" ]} ]}.

(** * Properties *)

(** ** The selector *)

Lemma has_slug_true (s : string) (e : klass) :
  has_slug s e = true <-> class_SLUG e = Some (PyStr s).
Proof.
  unfold has_slug. destruct (class_SLUG e) as [v|]; [|split; discriminate].
  destruct v; simpl; try (split; discriminate).
  rewrite String.eqb_eq. split; [intros ->; reflexivity | intros [= ->]; reflexivity].
Qed.

Lemma truthy_str (s : string) : Py.truthy (PyStr s) = true <-> s <> EmptyString.
Proof.
  simpl. rewrite negb_true_iff, String.eqb_neq. reflexivity.
Qed.

Lemma get_engines_In (order : list klass -> list klass) (root e : klass) :
  In e (get_engines order root) ->
  In e (order (get_subclasses root)) /\
  exists slug, class_SLUG e = Some slug /\ Py.truthy slug = true.
Proof.
  unfold get_engines. rewrite filter_In. intros [Hin Hslug]. split; [exact Hin|].
  destruct (class_SLUG e) as [v|]; [eauto | discriminate].
Qed.

(** The selector on a non-empty string is decided by the matches among
    the engines. *)
Lemma get_engine_by_slug_str (order : list klass -> list klass) (root : klass)
    (s : string) :
  s <> EmptyString ->
  get_engine_by_slug order root (PyStr s) =
    match List.filter (has_slug s) (get_engines order root) with
    | [] => (Raise (no_engine_found s), [])
    | engine :: others =>
        let printed := match others with
                       | [] => []
                       | _ => [multiple_engines_warning s]
                       end in
        if negb (is_available engine) then (Raise (engine_not_available s), printed)
        else (Ret engine, printed)
    end.
Proof.
  intros Hs. unfold get_engine_by_slug.
  apply truthy_str in Hs. rewrite Hs. reflexivity.
Qed.

Lemma filter_none {A} (f : A -> bool) (l : list A) :
  Forall (fun x => f x = false) l -> List.filter f l = [].
Proof.
  induction 1 as [|x l Hx _ IH]; simpl; [reflexivity|]. rewrite Hx. exact IH.
Qed.

Lemma filter_some {A} (f : A -> bool) (l : list A) :
  Exists (fun x => f x = true) l -> List.filter f l <> [].
Proof.
  induction 1 as [x l Hx | x l _ IH]; simpl.
  - rewrite Hx. discriminate.
  - destruct (f x); [discriminate | exact IH].
Qed.

(** C9. The selector called with the empty string or with a value that is
    not a string raises the [TypeError] of an invalid slug, the
    [InvalidArgument] of the specification, whatever the registry holds. *)
Theorem get_engine_by_slug_invalid_argument
    (order : list klass -> list klass) (root : klass) (slug : pyval) :
  slug = PyStr EmptyString \/ Py.is_str slug = false ->
  get_engine_by_slug order root slug = (Raise (invalid_slug slug), []) /\
  InvalidArgument (invalid_slug slug).
Proof.
  intros H. split; [|reflexivity].
  unfold get_engine_by_slug. destruct H as [-> | H].
  - reflexivity.
  - rewrite H, orb_true_r. reflexivity.
Qed.

Lemma get_engine_by_slug_invalid_argument_witness :
  (PyStr EmptyString = PyStr EmptyString \/ Py.is_str (PyStr EmptyString) = false) /\
  (PyNone = PyStr EmptyString \/ Py.is_str PyNone = false) /\
  get_engine_by_slug id (AbstractSTTEngine true) (PyStr EmptyString)
    = (Raise (invalid_slug (PyStr EmptyString)), []) /\
  get_engine_by_slug id (AbstractSTTEngine true) PyNone
    = (Raise (invalid_slug PyNone), []).
Proof.
  split; [left; reflexivity|]. split; [right; reflexivity|]. split.
  - apply (get_engine_by_slug_invalid_argument id (AbstractSTTEngine true)
             (PyStr EmptyString)).
    left; reflexivity.
  - apply (get_engine_by_slug_invalid_argument id (AbstractSTTEngine true) PyNone).
    right; reflexivity.
Defined.

(** C2, as stated, fails: the empty string is a string that no registered
    provider claims, and the selector answers it with the [TypeError] of an
    invalid slug, not with the [ValueError] of an unknown one. *)
Lemma unknown_slug_counterexample :
  ~ (forall (order : list klass -> list klass) (root : klass) (s : string),
        (forall l, Permutation (order l) l) ->
        (forall c, In c (get_subclasses root) -> class_SLUG c <> Some (PyStr s)) ->
        exists e, (get_engine_by_slug order root (PyStr s)).1 = Raise e /\ LookupError e).
Proof.
  intros H.
  destruct (H id (AbstractSTTEngine true) EmptyString) as (e & He & slug & Hl).
  - intros l. reflexivity.
  - simpl. intros c Hc.
    repeat (destruct Hc as [<- | Hc]; [discriminate|]). destruct Hc.
  - simpl in He. injection He as <-. discriminate Hl.
Qed.

(** C2, amended. For every non-empty string that is the slug of no class
    under the root, the selector raises the [ValueError] "No STT engine
    found", the [LookupError] of the specification, and prints nothing. *)
Theorem get_engine_by_slug_unknown_slug
    (order : list klass -> list klass) (root : klass) (s : string) :
  (forall l, Permutation (order l) l) ->
  s <> EmptyString ->
  (forall c, In c (get_subclasses root) -> class_SLUG c <> Some (PyStr s)) ->
  get_engine_by_slug order root (PyStr s) = (Raise (no_engine_found s), []) /\
  LookupError (no_engine_found s).
Proof.
  intros Hperm Hs Hnone. split; [|exists s; reflexivity].
  rewrite get_engine_by_slug_str by exact Hs.
  rewrite filter_none; [reflexivity|].
  apply List.Forall_forall. intros e He.
  apply get_engines_In in He as [Hin _].
  apply (Permutation_in _ (Hperm _)) in Hin.
  destruct (has_slug s e) eqn:E; [|reflexivity].
  apply has_slug_true in E. destruct (Hnone e Hin E).
Qed.

Lemma get_engine_by_slug_unknown_slug_witness :
  get_engine_by_slug id (AbstractSTTEngine true) (PyStr "nonexistent")
    = (Raise (no_engine_found "nonexistent"), []) /\
  LookupError (no_engine_found "nonexistent").
Proof.
  apply (get_engine_by_slug_unknown_slug id (AbstractSTTEngine true) "nonexistent").
  - intros l. reflexivity.
  - discriminate.
  - simpl. intros c Hc.
    repeat (destruct Hc as [<- | Hc]; [discriminate|]). destruct Hc.
Defined.

(** The two arrangements of the set of [dup_root] select different
    classes. *)
Lemma dup_selection :
  get_engine_by_slug id dup_root (PyStr "dup")
    = (Ret FirstDup, [multiple_engines_warning "dup"]) /\
  get_engine_by_slug (@rev klass) dup_root (PyStr "dup")
    = (Ret SecondDup, [multiple_engines_warning "dup"]).
Proof. split; reflexivity. Qed.

(** C6, as stated, fails: the engines are listed from a [set], and two
    runs that visit the same set of classes in different orders select
    different providers for a slug that two of them claim; the one
    selected need not be the first that was registered. *)
Lemma selection_order_counterexample :
  ~ (forall (order1 order2 : list klass -> list klass) (root : klass) (slug : pyval),
        (forall l, Permutation (order1 l) l) ->
        (forall l, Permutation (order2 l) l) ->
        (get_engine_by_slug order1 root slug).1 = (get_engine_by_slug order2 root slug).1).
Proof.
  intros H.
  specialize (H id (@rev klass) dup_root (PyStr "dup")).
  destruct dup_selection as [H1 H2]. rewrite H1, H2 in H.
  assert (Ret FirstDup = Ret SecondDup) as E.
  { apply H; intros l; [reflexivity | symmetry; apply Permutation_rev]. }
  discriminate E.
Qed.

(** C6, amended. When a provider claims the slug and another one after it
    in the list of engines claims it too, the selector prints the warning
    and takes the first of them in that list, the order in which the set
    of classes is visited: it returns it when it is available and raises
    the [ValueError] "not available" otherwise, without trying the next. *)
Theorem get_engine_by_slug_first_match
    (order : list klass -> list klass) (root : klass) (s : string)
    (before : list klass) (first : klass) (after : list klass) :
  get_engines order root = (before ++ first :: after)%list ->
  Forall (fun e => has_slug s e = false) before ->
  has_slug s first = true ->
  Exists (fun e => has_slug s e = true) after ->
  get_engine_by_slug order root (PyStr s) =
    (if is_available first then Ret first else Raise (engine_not_available s),
     [multiple_engines_warning s]).
Proof.
  intros Hall Hbefore Hfirst Hafter.
  assert (s <> EmptyString) as Hs.
  { assert (In first (get_engines order root)) as Hin
      by (rewrite Hall; apply in_elt).
    apply get_engines_In in Hin as (_ & v & Hv & Htruthy).
    apply has_slug_true in Hfirst. rewrite Hfirst in Hv. injection Hv as <-.
    apply truthy_str. exact Htruthy. }
  rewrite get_engine_by_slug_str by exact Hs.
  rewrite Hall, List.filter_app, (filter_none _ _ Hbefore). simpl. rewrite Hfirst.
  apply filter_some in Hafter.
  destruct (List.filter (has_slug s) after); [destruct (Hafter eq_refl)|].
  destruct (is_available first); reflexivity.
Qed.

Lemma get_engine_by_slug_first_match_witness :
  get_engine_by_slug id dup_root (PyStr "dup")
    = (Ret FirstDup, [multiple_engines_warning "dup"]).
Proof.
  apply (get_engine_by_slug_first_match id dup_root "dup" [] FirstDup [SecondDup]).
  - reflexivity.
  - constructor.
  - reflexivity.
  - constructor. reflexivity.
Defined.

(** ** The Wit.ai adapter *)



(** ** Transport failures *)

(** C1, at the failing input. An exception that the transport raises
    while a request is sent leaves [transcribe] as it is: each adapter
    sends its request outside every [try], and the clauses
    [except requests.exceptions.RequestException] of the AT&T and Wit.ai
    adapters guard [raise_for_status] only. *)
Theorem transcribe_transport_error_propagates (e : exn) (fp : audio_file) :
  (forall s, (AttSTT.transcribe (failing e) fp s).1 = Raise e) /\
  (forall s, (WitAiSTT.transcribe (failing e) fp s).1 = Raise e) /\
  (forall rate data c key sent0 log0,
      (GoogleSTT.transcribe (failing e) (AudioFile (Ret rate) data)
         (State (GoogleSTT.__init__ (PyStr (String c key)) GoogleSTT.default_language)
                sent0 log0)).1 = Raise e).
Proof.
  split; [|split].
  - intros s. unfold AttSTT.transcribe, AttSTT._get_response, AttSTT.token. run.
    destruct (Py.truthy (AttSTT._token (self s))); reflexivity.
  - intros s. reflexivity.
  - intros rate data c key sent0 log0. reflexivity.
Qed.

(** ** The Google adapter *)



(** [split('\n', 1)] cuts at the first newline only: what [[-1]] takes
    is all the text after it. *)
Lemma last_item_after_first_newline (first rest : string) :
  has_newline first = false ->
  Py.last_item (Py.split_newline_1 (first ++ newline_str ++ rest)) = Ret rest.
Proof.
  intros H.
  assert (Py.split_newline_1 (first ++ newline_str ++ rest) = [first; rest]) as ->;
    [|reflexivity].
  induction first as [|c first IH]; [reflexivity|].
  simpl in H. apply orb_false_iff in H as [Hc Hfirst].
  simpl. rewrite Hc, (IH Hfirst). reflexivity.
Qed.

(** With three documents, the text handed to [json.loads] is the second
    and the third together. *)
Lemma three_documents_last_item :
  Py.last_item (Py.split_newline_1 (Py.strip three_documents))
  = Ret (empty_result_document ++ newline_str ++ hello_document).
Proof. reflexivity. Qed.





(** ** Instantiation *)

Lemma check_keywords_ok (params : list string) (config : kwargs) :
  (forall k, is_Some (config !! k) -> In k params) ->
  check_keywords params config = Ret tt.
Proof.
  intros H. unfold check_keywords.
  assert (forallb (fun k => existsb (String.eqb k) params) (map_to_list config).*1 = true)
    as ->; [|reflexivity].
  apply forallb_forall. intros k Hk.
  apply list_elem_of_In, list_elem_of_fmap in Hk as ([k' v] & -> & Hkv).
  apply elem_of_map_to_list in Hkv. simpl.
  apply existsb_exists. exists k'. split; [|apply String.eqb_refl].
  apply H. exists v. exact Hkv.
Qed.

Lemma check_keywords_TypeError (params : list string) (config : kwargs) (e : exn) :
  check_keywords params config = Raise e -> exc_class e = TypeError.
Proof.
  unfold check_keywords. destruct (forallb _ _); [discriminate|].
  intros [= <-]. reflexivity.
Qed.

(** C3, as stated, fails: the Google provider is constructed from a
    configuration without the API key. *)
Lemma instantiate_counterexample :
  ~ (forall (cls : provider) (config : kwargs),
        (exists f, In f (required_fields cls) /\ config !! f = None) ->
        exists e, instantiate cls config = Raise e).
Proof.
  intros H. destruct (H Google ∅) as [e He].
  - exists "api_key". split; [left; reflexivity | apply lookup_empty].
  - vm_compute in He. discriminate He.
Qed.

(** C3, amended. The AT&T and Wit.ai providers are not constructed when
    a credential they require is absent: the call raises [TypeError]. The
    Google provider is constructed without an API key: the instance has the
    key [None] and no request URL, and its [transcribe] sends no request,
    logs that the key is missing and returns the empty list. *)
Theorem instantiate_missing_credential (config : kwargs) :
  (forall cls f,
     cls <> Google -> In f (required_fields cls) -> config !! f = None ->
     exists e, instantiate cls config = Raise e /\ exc_class e = TypeError) /\
  (config !! "api_key" = None ->
   (forall k, is_Some (config !! k) -> In k ["api_key"; "language"]) ->
   exists g,
     instantiate Google config = Ret (GoogleInstance g) /\
     GoogleSTT.api_key g = PyNone /\
     GoogleSTT.request_url g = None /\
     forall net fp,
       transcribe net (GoogleInstance g) fp
       = (Ret (PyList []), [],
          [LogRecord CRITICAL "API key missing, transcription request aborted." []])).
Proof.
  split.
  - intros cls f Hcls Hf Hnone. unfold instantiate.
    destruct cls; [destruct (Hcls eq_refl) | |].
    + destruct (check_keywords ["app_key"; "app_secret"] config) as [[]|e] eqn:Hk.
      2:{ exists e. split; [reflexivity | exact (check_keywords_TypeError _ _ _ Hk)]. }
      simpl in Hf. unfold mbind, result_bind, keyword.
      destruct Hf as [<- | [<- | []]].
      * rewrite Hnone. eauto.
      * destruct (config !! "app_key"); simpl; [rewrite Hnone|]; eauto.
    + destruct (check_keywords ["access_token"] config) as [[]|e] eqn:Hk.
      2:{ exists e. split; [reflexivity | exact (check_keywords_TypeError _ _ _ Hk)]. }
      simpl in Hf. unfold mbind, result_bind, keyword.
      destruct Hf as [<- | []]. rewrite Hnone. eauto.
  - intros Hnone Hkeys. unfold instantiate.
    rewrite (check_keywords_ok _ _ Hkeys). unfold mbind, result_bind, keyword.
    rewrite Hnone. simpl.
    destruct (config !! "language") as [language|]; simpl;
      eexists; (split; [reflexivity|]); repeat split.
Qed.

Lemma instantiate_missing_credential_witness :
  (exists e, instantiate Att ∅ = Raise e /\ exc_class e = TypeError) /\
  (exists g, instantiate Google ∅ = Ret (GoogleInstance g) /\
             GoogleSTT.api_key g = PyNone).
Proof.
  split.
  - apply (proj1 (instantiate_missing_credential ∅) Att "app_key").
    + discriminate.
    + left; reflexivity.
    + apply lookup_empty.
  - destruct (proj2 (instantiate_missing_credential ∅)) as (g & Hg & Hkey & _).
    + apply lookup_empty.
    + intros k [v Hv]. rewrite lookup_empty in Hv. discriminate Hv.
    + exists g. split; [exact Hg | exact Hkey].
Defined.

(** ** The AT&T adapter *)



Section Sorting.

Context {A : Type} (key : A -> Q).






End Sorting.



Lemma raise_for_status_ok (r : response) :
  raise_for_status r = Ret tt -> (status_code r =? codes_unauthorized) = false.
Proof.
  unfold raise_for_status, codes_unauthorized.
  destruct (400 <=? status_code r) eqn:E1; destruct (status_code r <? 600) eqn:E2;
    simpl; try discriminate; intros _; lia.
Qed.






(** * Further properties *)

(** ** The Google adapter, further *)


(** X2. When the key or the language of a Google instance is a false
    value ([None], the empty string), [transcribe] returns the empty list,
    sends no request, leaves the instance as it is and logs one critical
    record. *)
Theorem GoogleSTT_transcribe_unconfigured
    (net : transport) (fp : audio_file) (s : state GoogleSTT.t) :
  Py.truthy (GoogleSTT.api_key (self s)) = false \/
  Py.truthy (GoogleSTT.language (self s)) = false ->
  exists msg,
    GoogleSTT.transcribe net fp s
    = (Ret (PyList []), State (self s) (sent s) (log s ++ [LogRecord CRITICAL msg []])).
Proof.
  intros H. unfold GoogleSTT.transcribe. run.
  destruct (Py.truthy (GoogleSTT.api_key (self s))) eqn:Hkey; simpl; [|eauto].
  destruct H as [H | H]; [discriminate|]. rewrite H. simpl. eauto.
Qed.

(** X3. [transcribe] of the Google adapter never changes the instance
    and sends one request at most: the requests sent are those sent before,
    or those and the one request of this call for the frame rate of the
    file. *)
Theorem GoogleSTT_transcribe_frame
    (net : transport) (fp : audio_file) (s : state GoogleSTT.t) :
  self (GoogleSTT.transcribe net fp s).2 = self s /\
  (sent (GoogleSTT.transcribe net fp s).2 = sent s \/
   exists rate, getframerate fp = Ret rate /\
     sent (GoogleSTT.transcribe net fp s).2
     = (sent s ++ [google_request (self s) fp rate])%list).
Proof.
  unfold GoogleSTT.transcribe. run.
  destruct (Py.truthy (GoogleSTT.api_key (self s))); simpl; [|auto].
  destruct (Py.truthy (GoogleSTT.language (self s))); simpl; [|auto].
  destruct (getframerate fp) as [rate|]; simpl; [|auto].
  fold (google_request (self s) fp rate).
  destruct (net (sent s) (google_request (self s) fp rate)) as [r|]; simpl.
  - split; [|right; exists rate; split; [reflexivity|]]; google_cases; reflexivity.
  - split; [reflexivity|]. right. exists rate. split; reflexivity.
Qed.


(** X4. When the response has a status from 400 to 599, the Google
    adapter returns the empty list and logs the status at critical level,
    and for the status 403 it adds the warning about an invalid API key. *)
Theorem GoogleSTT_transcribe_http_error
    (net : transport) (fp : audio_file) (s : state GoogleSTT.t)
    (rate : pyval) (r : response) :
  answered net fp s rate r ->
  400 <= status_code r < 600 ->
  GoogleSTT.transcribe net fp s
  = (Ret (PyList []),
     State (self s) (sent s ++ [google_request (self s) fp rate])
       (log s ++
        LogRecord CRITICAL "Request failed with http status %d" [PyInt (status_code r)]
        :: (if status_code r =? 403
            then [LogRecord WARNING
                    "Status 403 is probably caused by an invalid Google API key." []]
            else []))%list).
Proof.
  intros H Hcode.
  destruct H as (Hkey & Hlang & Hrate & Hnet).
  unfold GoogleSTT.transcribe. run. rewrite Hkey, Hlang. simpl. rewrite Hrate. simpl.
  fold (google_request (self s) fp rate). rewrite Hnet. simpl.
  unfold raise_for_status.
  assert ((400 <=? status_code r) && (status_code r <? 600) = true) as -> by lia.
  simpl. unfold codes_forbidden.
  destruct (status_code r =? 403); simpl; rewrite <- ?app_assoc; reflexivity.
Qed.

Lemma GoogleSTT_transcribe_parse_error
    (net : transport) (fp : audio_file) (s : state GoogleSTT.t)
    (rate : pyval) (r : response) (e : exn) :
  answered net fp s rate r ->
  raise_for_status r = Ret tt ->
  GoogleSTT.parse r = Raise e ->
  let s1 := State (self s) (sent s ++ [google_request (self s) fp rate]) (log s) in
  let warn fmt args := State (self s1) (sent s1) (log s1 ++ [LogRecord WARNING fmt args]) in
  GoogleSTT.transcribe net fp s =
    if isinstance e ValueError then
      match Py.args0 e with
      | Ret msg => (Ret (PyList []), warn "Empty response: %s" [msg])
      | Raise e' => (Raise e', s1)
      end
    else if isinstance e KeyError || isinstance e IndexError then
      (Ret (PyList []), warn "Cannot parse response." [])
    else (Raise e, s1).
Proof.
  intros (Hkey & Hlang & Hrate & Hnet) Hstatus He s1 warn.
  unfold GoogleSTT.transcribe. run. rewrite Hkey, Hlang. simpl.
  rewrite Hrate. simpl. fold (google_request (self s) fp rate). rewrite Hnet. simpl.
  rewrite Hstatus, He. simpl.
  destruct (isinstance e ValueError); simpl.
  - destruct (Py.args0 e); reflexivity.
  - destruct (isinstance e KeyError || isinstance e IndexError); reflexivity.
Qed.

(** X5. How an exception of the parsing decides the call of the Google
    adapter: a [ValueError] is logged as an empty response and a [KeyError]
    or an [IndexError] as a response that cannot be parsed, both with the
    empty list as the result; any other exception leaves [transcribe]. *)
Theorem GoogleSTT_transcribe_outcomes
    (net : transport) (fp : audio_file) (s : state GoogleSTT.t)
    (rate : pyval) (r : response) :
  answered net fp s rate r ->
  raise_for_status r = Ret tt ->
  let s1 := State (self s) (sent s ++ [google_request (self s) fp rate]) (log s) in
  let warn fmt args := State (self s1) (sent s1) (log s1 ++ [LogRecord WARNING fmt args]) in
  (forall msg args,
     GoogleSTT.parse r = Raise (Exc ValueError (msg :: args)) ->
     GoogleSTT.transcribe net fp s = (Ret (PyList []), warn "Empty response: %s" [msg])) /\
  (forall e,
     GoogleSTT.parse r = Raise e ->
     exc_class e = KeyError \/ exc_class e = IndexError ->
     GoogleSTT.transcribe net fp s = (Ret (PyList []), warn "Cannot parse response." [])) /\
  (forall e,
     GoogleSTT.parse r = Raise e ->
     exc_class e <> ValueError -> exc_class e <> KeyError -> exc_class e <> IndexError ->
     GoogleSTT.transcribe net fp s = (Raise e, s1)).
Proof.
  intros Hans Hstatus s1 warn.
  split; [|split].
  - intros msg args He.
    rewrite (GoogleSTT_transcribe_parse_error net fp s rate r _ Hans Hstatus He).
    reflexivity.
  - intros e He Hclass.
    rewrite (GoogleSTT_transcribe_parse_error net fp s rate r _ Hans Hstatus He).
    destruct e as [c args]. simpl in Hclass. destruct Hclass as [-> | ->]; reflexivity.
  - intros e He Hv Hk Hi.
    rewrite (GoogleSTT_transcribe_parse_error net fp s rate r _ Hans Hstatus He).
    destruct e as [c args]. simpl in *. destruct c; try reflexivity; congruence.
Qed.

(** X6. When the last document of the response is an object whose
    [result] has the length 0, the Google adapter returns the empty list
    and logs the warning that nothing has been transcribed. *)
Theorem GoogleSTT_transcribe_empty_result
    (net : transport) (fp : audio_file) (s : state GoogleSTT.t)
    (rate : pyval) (r : response) (doc : string) (d : gmap string pyval) (res : pyval) :
  answered net fp s rate r ->
  raise_for_status r = Ret tt ->
  Py.last_item (Py.split_newline_1 (Py.strip (text r))) = Ret doc ->
  Json.loads doc = Ret (PyDict d) ->
  d !! "result" = Some res ->
  Py.len res = Ret 0 ->
  GoogleSTT.transcribe net fp s
  = (Ret (PyList []),
     State (self s) (sent s ++ [google_request (self s) fp rate])
       (log s ++ [LogRecord WARNING "Empty response: %s"
                    [PyStr "Nothing has been transcribed."]])).
Proof.
  intros Hans Hstatus Hdoc Hloads Hres Hlen.
  rewrite (GoogleSTT_transcribe_parse_error net fp s rate r
             (Exc ValueError [PyStr "Nothing has been transcribed."]) Hans Hstatus);
    [reflexivity|].
  unfold GoogleSTT.parse. rewrite Hdoc. cbn. rewrite Hloads. cbn. rewrite Hres. cbn.
  rewrite Hlen. reflexivity.
Qed.


(** X8. When the last document is JSON but no object (an array, a
    string, a number, [true], [false] or [null]), [transcribe] of the Google
    adapter raises [TypeError]: no [except] clause catches it. *)
Theorem GoogleSTT_transcribe_not_an_object
    (net : transport) (fp : audio_file) (s : state GoogleSTT.t)
    (rate : pyval) (r : response) (doc : string) (v : pyval) :
  answered net fp s rate r ->
  raise_for_status r = Ret tt ->
  Py.last_item (Py.split_newline_1 (Py.strip (text r))) = Ret doc ->
  Json.loads doc = Ret v ->
  (forall d, v <> PyDict d) ->
  exists e, (GoogleSTT.transcribe net fp s).1 = Raise e /\ exc_class e = TypeError.
Proof.
  intros Hans Hstatus Hdoc Hloads Hv.
  assert (exists msg, GoogleSTT.parse r = Raise (Exc TypeError msg)) as [msg Hparse].
  { unfold GoogleSTT.parse. rewrite Hdoc. cbn. rewrite Hloads. cbn.
    destruct v; cbn; eauto. destruct (Hv d eq_refl). }
  exists (Exc TypeError msg). split; [|reflexivity].
  rewrite (GoogleSTT_transcribe_parse_error net fp s rate r _ Hans Hstatus Hparse).
  reflexivity.
Qed.

(** X9. When the file is no WAV file, the exception of [wave.open]
    leaves [transcribe] of the Google adapter, and nothing is sent or
    logged. *)
Theorem GoogleSTT_transcribe_invalid_wav
    (net : transport) (fp : audio_file) (s : state GoogleSTT.t) (e : exn) :
  Py.truthy (GoogleSTT.api_key (self s)) = true ->
  Py.truthy (GoogleSTT.language (self s)) = true ->
  getframerate fp = Raise e ->
  GoogleSTT.transcribe net fp s = (Raise e, s).
Proof.
  intros Hkey Hlang Hrate. unfold GoogleSTT.transcribe. run.
  rewrite Hkey, Hlang. simpl. rewrite Hrate. reflexivity.
Qed.




(** ** The Wit.ai adapter, further *)

(** X11. Whatever the transport answers, [transcribe] of a Wit.ai
    instance made by [__init__] and the setter of [token] sends exactly one
    request, to the speech URL, with the audio as its body and the current
    token in its [Authorization] header, and leaves the instance as it
    is. *)
Theorem WitAiSTT_transcribe_one_request
    (net : transport) (fp : audio_file) (w : WitAiSTT.t)
    (sent0 : list request) (log0 : list log_record) :
  wit_configured w ->
  self (WitAiSTT.transcribe net fp (State w sent0 log0)).2 = w /\
  sent (WitAiSTT.transcribe net fp (State w sent0 log0)).2
  = (sent0 ++ [wit_request (WitAiSTT.token w) fp])%list.
Proof.
  intros Hw.
  assert (WitAiSTT.headers w = req_headers (wit_request (WitAiSTT.token w) fp)) as Hh
    by (destruct Hw; reflexivity).
  unfold WitAiSTT.transcribe. run. rewrite Hh. unfold wit_request. simpl.
  destruct (net sent0 _) as [r|]; simpl.
  - split; wit_cases; reflexivity.
  - split; reflexivity.
Qed.





(** ** The AT&T adapter, further *)

(** X14. After the property [token] of the AT&T adapter gave a token that
    is a true value, the instance holds that token, and the next access
    returns it without sending a request; the first access sent one token
    request at most. *)
Theorem AttSTT_token_cached (net : transport) (s s1 : state AttSTT.t) (tok : pyval) :
  AttSTT.token net s = (Ret tok, s1) ->
  Py.truthy tok = true ->
  AttSTT._token (self s1) = tok /\
  AttSTT.token net s1 = (Ret tok, s1) /\
  (sent s1 = sent s \/ sent s1 = (sent s ++ [AttSTT.token_request (self s)])%list).
Proof.
  unfold AttSTT.token. run.
  destruct (Py.truthy (AttSTT._token (self s))) eqn:Hcached; simpl.
  - intros [= <- <-] _. rewrite Hcached. auto.
  - destruct (net (sent s) (AttSTT.token_request (self s))) as [r|]; simpl; [|discriminate].
    destruct (json r) as [payload|]; simpl; [|discriminate].
    destruct (Py.getitem_str payload "access_token") as [t|]; simpl; [|discriminate].
    intros [= <- <-] Htruthy. simpl. rewrite Htruthy. auto.
Qed.

(** X15. When no token is cached and the payload of the token endpoint
    has no [access_token], [transcribe] of the AT&T adapter raises
    [KeyError]; only the token request was sent, and no token is stored. *)
Theorem AttSTT_token_missing
    (net : transport) (fp : audio_file) (s : state AttSTT.t) (rt : response)
    (d : gmap string pyval) :
  Py.truthy (AttSTT._token (self s)) = false ->
  net (sent s) (AttSTT.token_request (self s)) = Ret rt ->
  json rt = Ret (PyDict d) ->
  d !! "access_token" = None ->
  AttSTT.transcribe net fp s
  = (Raise (Exc KeyError [PyStr "access_token"]),
     State (self s) (sent s ++ [AttSTT.token_request (self s)]) (log s)).
Proof.
  intros Hnone Hnet Hjson Hd.
  unfold AttSTT.transcribe, AttSTT._get_response, AttSTT.token. run.
  rewrite Hnone. simpl. rewrite Hnet. simpl.
  rewrite Hjson. simpl. rewrite Hd. reflexivity.
Qed.

(** X16. When the answer to the speech request has a status other than
    401, the AT&T adapter sends nothing more and keeps its token; for a
    status from 400 to 599 it returns the empty list and logs the body at
    critical level. *)
Theorem AttSTT_no_retry
    (net : transport) (fp : audio_file) (s s1 : state AttSTT.t) (tok : pyval)
    (r : response) :
  AttSTT.token net s = (Ret tok, s1) ->
  net (sent s1) (AttSTT.speech_request tok (read fp)) = Ret r ->
  status_code r <> codes_unauthorized ->
  sent (AttSTT.transcribe net fp s).2
    = (sent s1 ++ [AttSTT.speech_request tok (read fp)])%list /\
  self (AttSTT.transcribe net fp s).2 = self s1 /\
  (400 <= status_code r < 600 ->
   (AttSTT.transcribe net fp s).1 = Ret (PyList []) /\
   log (AttSTT.transcribe net fp s).2
   = (log s1 ++ [LogRecord CRITICAL "Request failed with response: %r"
                   [PyStr (text r)]])%list).
Proof.
  intros Htok Hr Hcode.
  remember (AttSTT.transcribe net fp s) as out eqn:Hout.
  unfold AttSTT.transcribe, AttSTT._get_response, mbind, M_bind in Hout.
  cbv beta in Hout. rewrite Htok in Hout. unfold post at 1 in Hout.
  rewrite Hr in Hout. apply Z.eqb_neq in Hcode. rewrite Hcode in Hout.
  unfold mret, M_ret, try_except_else, lift, logger in Hout.
  subst out. split; [|split].
  - response_cases; reflexivity.
  - response_cases; reflexivity.
  - intros Hrange. unfold raise_for_status.
    assert ((400 <=? status_code r) && (status_code r <? 600) = true) as -> by lia.
    split; reflexivity.
Qed.

Lemma AttSTT_transcribe_answered
    (net : transport) (fp : audio_file) (s s1 : state AttSTT.t) (tok : pyval)
    (r : response) :
  att_answered net fp s s1 tok r ->
  let s2 := State (self s1) (sent s1 ++ [AttSTT.speech_request tok (read fp)]) (log s1) in
  let logged lv fmt args :=
    State (self s2) (sent s2) (log s2 ++ [LogRecord lv fmt args]) in
  AttSTT.transcribe net fp s =
    match AttSTT.parse r with
    | Ret results =>
        match AttSTT.sorted_reverse results with
        | Ret ordered =>
            match mapM Py.upper ordered with
            | Ret transcribed =>
                (Ret (PyList transcribed),
                 logged INFO "Transcribed: %r" [PyList transcribed])
            | Raise e => (Raise e, s2)
            end
        | Raise e => (Raise e, s2)
        end
    | Raise e =>
        if isinstance e ValueError then
          match Py.args0 e with
          | Ret status =>
              (Ret (PyList []), logged DEBUG "Recognition failed with status: %s" [status])
          | Raise e' => (Raise e', s2)
          end
        else if isinstance e KeyError then
          (Ret (PyList []), logged CRITICAL "Cannot parse response." [])
        else (Raise e, s2)
    end.
Proof.
  intros (Htok & Hr & Hstatus) s2 logged.
  unfold AttSTT.transcribe, AttSTT._get_response, mbind, M_bind. cbv beta.
  rewrite Htok. unfold post at 1. rewrite Hr, (raise_for_status_ok _ Hstatus).
  unfold mret, M_ret, try_except_else, lift, logger. rewrite Hstatus.
  destruct (AttSTT.parse r) as [results|e]; simpl.
  - destruct (AttSTT.sorted_reverse results); simpl; [|reflexivity].
    destruct (mapM Py.upper a); reflexivity.
  - destruct (isinstance e ValueError); simpl.
    + destruct (Py.args0 e); reflexivity.
    + destruct (isinstance e KeyError); reflexivity.
Qed.

(** X17. After a response without error status, the AT&T adapter returns
    the empty list for a recognition whose status is not [OK] and for a body
    that is no JSON (both logged at debug level) and for a payload without
    [Recognition] (logged at critical level); a payload that is no object
    raises [TypeError] out of [transcribe]. *)
Theorem AttSTT_transcribe_absorbed
    (net : transport) (fp : audio_file) (s s1 : state AttSTT.t) (tok : pyval)
    (r : response) :
  att_answered net fp s s1 tok r ->
  let s2 := State (self s1) (sent s1 ++ [AttSTT.speech_request tok (read fp)]) (log s1) in
  let logged lv fmt args :=
    State (self s2) (sent s2) (log s2 ++ [LogRecord lv fmt args]) in
  (forall payload recognition status,
     json r = Ret (PyDict payload) ->
     payload !! "Recognition" = Some (PyDict recognition) ->
     recognition !! "Status" = Some status ->
     Py.eq_str status "OK" = false ->
     AttSTT.transcribe net fp s
     = (Ret (PyList []), logged DEBUG "Recognition failed with status: %s" [status])) /\
  (forall msg args,
     json r = Raise (Exc ValueError (msg :: args)) ->
     AttSTT.transcribe net fp s
     = (Ret (PyList []), logged DEBUG "Recognition failed with status: %s" [msg])) /\
  (forall payload,
     json r = Ret (PyDict payload) ->
     payload !! "Recognition" = None ->
     AttSTT.transcribe net fp s
     = (Ret (PyList []), logged CRITICAL "Cannot parse response." [])) /\
  (forall v,
     json r = Ret v ->
     (forall d, v <> PyDict d) ->
     exists e, AttSTT.transcribe net fp s = (Raise e, s2) /\ exc_class e = TypeError).
Proof.
  intros Hans s2 logged.
  pose proof (AttSTT_transcribe_answered net fp s s1 tok r Hans) as Hrun.
  cbv zeta in Hrun. fold s2 in Hrun.
  split; [|split; [|split]].
  - intros payload recognition status Hjson Hrec Hstatus Hne. rewrite Hrun.
    unfold AttSTT.parse. rewrite Hjson. cbn. rewrite Hrec. cbn. rewrite Hstatus. cbn.
    rewrite Hne. reflexivity.
  - intros msg args Hjson. rewrite Hrun. unfold AttSTT.parse. rewrite Hjson. reflexivity.
  - intros payload Hjson Hnone. rewrite Hrun. unfold AttSTT.parse. rewrite Hjson. cbn.
    rewrite Hnone. reflexivity.
  - intros v Hjson Hv. rewrite Hrun. unfold AttSTT.parse. rewrite Hjson. cbn.
    destruct v; cbn; eauto. destruct (Hv d eq_refl).
Qed.



(** ** The selector, further *)

(** X19. An engine that the selector returns is a class below the root,
    its slug is the non-empty string that was asked for, and it is
    available. *)
Theorem get_engine_by_slug_sound
    (order : list klass -> list klass) (root : klass) (slug : pyval)
    (engine : klass) (printed : list string) :
  (forall l, Permutation (order l) l) ->
  get_engine_by_slug order root slug = (Ret engine, printed) ->
  exists s,
    slug = PyStr s /\ s <> EmptyString /\
    In engine (get_subclasses root) /\
    class_SLUG engine = Some (PyStr s) /\
    is_available engine = true.
Proof.
  intros Hperm. unfold get_engine_by_slug.
  destruct (negb (Py.truthy slug) || negb (Py.is_str slug)) eqn:Hguard; [discriminate|].
  apply orb_false_iff in Hguard as [Htruthy Hstr].
  apply negb_false_iff in Htruthy.
  destruct slug as [| | | |s| | |]; try discriminate.
  destruct (List.filter (has_slug s) (get_engines order root)) as [|e others] eqn:Hsel;
    [discriminate|].
  destruct (is_available e) eqn:Havail; simpl; [|discriminate].
  intros [= <- _]. exists s.
  assert (In e (List.filter (has_slug s) (get_engines order root))) as Hin
    by (rewrite Hsel; left; reflexivity).
  apply filter_In in Hin as [Hin Hslug].
  apply get_engines_In in Hin as [Hin _].
  repeat split.
  - apply truthy_str. exact Htruthy.
  - exact (Permutation_in _ (Hperm _) Hin).
  - apply has_slug_true. exact Hslug.
  - exact Havail.
Qed.

Lemma filter_Permutation_bool {A} (f : A -> bool) (l1 l2 : list A) :
  Permutation l1 l2 -> Permutation (List.filter f l1) (List.filter f l2).
Proof.
  induction 1 as [|x l1 l2 _ IH|x y l|l1 l2 l3 _ IH1 _ IH2]; simpl.
  - constructor.
  - destruct (f x); [constructor|]; exact IH.
  - destruct (f x), (f y); try reflexivity. apply perm_swap.
  - etransitivity; eassumption.
Qed.

Lemma filter_filter_length {A} (f g : A -> bool) (l : list A) :
  (length (List.filter f (List.filter g l)) <= length (List.filter f l))%nat.
Proof.
  induction l as [|x l IH]; simpl; [lia|].
  destruct (g x) eqn:Hg, (f x) eqn:Hf; simpl; rewrite ?Hf; simpl; lia.
Qed.

Lemma Permutation_short_eq {A} (l1 l2 : list A) :
  Permutation l1 l2 -> (length l1 <= 1)%nat -> l1 = l2.
Proof.
  intros Hperm Hlen. destruct l1 as [|x [|y l1]]; simpl in Hlen; [| |lia].
  - apply Permutation_nil in Hperm. congruence.
  - apply Permutation_length_1_inv in Hperm. congruence.
Qed.

Lemma selected_engines_order
    (order : list klass -> list klass) (root : klass) (s : string) :
  (forall l, Permutation (order l) l) ->
  (length (List.filter (has_slug s) (get_subclasses root)) <= 1)%nat ->
  List.filter (has_slug s) (get_engines order root)
  = List.filter (has_slug s) (get_engines id root).
Proof.
  intros Hperm Hone. apply Permutation_short_eq.
  - unfold get_engines. do 2 apply filter_Permutation_bool. apply Hperm.
  - etransitivity; [|exact Hone].
    etransitivity; [|apply (filter_filter_length (has_slug s)
        (fun e => match class_SLUG e with Some v => Py.truthy v | None => false end))].
    apply Nat.eq_le_incl, Permutation_length.
    unfold get_engines. do 2 apply filter_Permutation_bool. apply Hperm.
Qed.

Lemma get_engine_by_slug_any_order
    (order : list klass -> list klass) (root : klass) (s : string) :
  (forall l, Permutation (order l) l) ->
  (length (List.filter (has_slug s) (get_subclasses root)) <= 1)%nat ->
  get_engine_by_slug order root (PyStr s) = get_engine_by_slug id root (PyStr s).
Proof.
  intros Hperm Hone.
  destruct (String.eqb s EmptyString) eqn:Hs.
  - apply String.eqb_eq in Hs as ->. reflexivity.
  - apply String.eqb_neq in Hs.
    rewrite !get_engine_by_slug_str by exact Hs.
    rewrite (selected_engines_order order root s Hperm Hone). reflexivity.
Qed.

(** X20. When at most one class below the root has the slug, the outcome
    of the selector does not depend on the order in which the set of classes
    is visited. *)
Theorem get_engine_by_slug_order_independent
    (order1 order2 : list klass -> list klass) (root : klass) (s : string) :
  (forall l, Permutation (order1 l) l) ->
  (forall l, Permutation (order2 l) l) ->
  (length (List.filter (has_slug s) (get_subclasses root)) <= 1)%nat ->
  get_engine_by_slug order1 root (PyStr s) = get_engine_by_slug order2 root (PyStr s).
Proof.
  intros Hperm1 Hperm2 Hone.
  rewrite (get_engine_by_slug_any_order order1 root s Hperm1 Hone).
  rewrite (get_engine_by_slug_any_order order2 root s Hperm2 Hone).
  reflexivity.
Qed.

(** X21. For the three providers of the module, in whatever order the
    set is visited: the selector returns the class of the slug when the
    network is available and raises the [ValueError] "not available"
    otherwise, and prints nothing. *)
Theorem get_engine_by_slug_own_providers
    (order : list klass -> list klass) (network : bool) :
  (forall l, Permutation (order l) l) ->
  let select name slug :=
    get_engine_by_slug order (AbstractSTTEngine network) (PyStr slug)
    = (if network then Ret (Class name (Some (PyStr slug)) network [])
       else Raise (engine_not_available slug), []) in
  select "GoogleSTT" "google" /\ select "AttSTT" "att" /\ select "WitAiSTT" "witai".
Proof.
  intros Hperm select. unfold select.
  repeat split;
    (rewrite (get_engine_by_slug_any_order order _ _ Hperm);
     [destruct network; reflexivity | simpl; lia]).
Qed.

(** ** The registry *)




Lemma set_add_listed (c : klass) (s : list klass) (n : string) :
  listed n (set_add c s) <-> listed n s \/ n = __name__ c.
Proof.
  unfold listed, set_add.
  destruct (existsb _ s) eqn:E.
  - split; [auto|]. intros [H | ->]; [exact H|].
    apply existsb_exists in E as (d & Hd & Hname). apply String.eqb_eq in Hname.
    apply list_elem_of_fmap. exists d. split; [congruence | apply list_elem_of_In, Hd].
  - rewrite fmap_app, elem_of_app. simpl. rewrite list_elem_of_singleton. reflexivity.
Qed.

Lemma set_update_listed (s new : list klass) (n : string) :
  listed n (set_update s new) <-> listed n s \/ listed n new.
Proof.
  unfold set_update. revert s. induction new as [|c new IH]; intros s; simpl.
  - unfold listed at 3. simpl. rewrite elem_of_nil. tauto.
  - rewrite IH, set_add_listed. unfold listed at 4. simpl. rewrite elem_of_cons.
    fold (listed n new). tauto.
Qed.

(** X23. [get_subclasses] reaches every class below the root, at any
    depth. *)
Theorem get_subclasses_complete (root d : klass) :
  descendant root d -> listed (__name__ d) (get_subclasses root).
Proof.
  assert (forall c sub n,
            In sub (__subclasses__ c) ->
            n = __name__ sub \/ listed n (get_subclasses sub) ->
            listed n (get_subclasses c)) as Hstep.
  { intros [name slug available subs] sub n Hin Hn. simpl in Hin. simpl.
    generalize (@nil klass) as acc. induction subs as [|x subs IH]; [destruct Hin|].
    intros acc. destruct Hin as [-> | Hin]; [|apply IH, Hin].
    clear IH.
    assert (listed n (set_update (set_add sub acc) (get_subclasses sub))) as Hacc.
    { apply set_update_listed. destruct Hn as [-> | Hn]; [left|right; exact Hn].
      apply set_add_listed. right. reflexivity. }
    revert Hacc. generalize (set_update (set_add sub acc) (get_subclasses sub)) as acc'.
    induction subs as [|y subs IH]; intros acc' Hacc; [exact Hacc|].
    apply IH, set_update_listed. left. apply set_add_listed. left. exact Hacc. }
  induction 1 as [c sub Hin | c sub d Hin _ IH].
  - apply (Hstep c sub); [exact Hin | left; reflexivity].
  - apply (Hstep c sub); [exact Hin | right; exact IH].
Qed.

(** ** Configuration *)

Lemma contains_str_dict (k : string) (d : gmap string pyval) :
  Py.contains_str k (PyDict d)
  = Ret (match d !! k with Some _ => true | None => false end).
Proof.
  simpl. f_equal. destruct (d !! k) eqn:E.
  - apply bool_decide_eq_true_2. eauto.
  - apply bool_decide_eq_false_2. intros [v Hv]. discriminate Hv.
Qed.

Lemma copy_field_dict (section : gmap string pyval) (key field : string)
    (config : kwargs) :
  copy_field (PyDict section) key field config
  = Ret (match section !! key with
         | Some v => <[field := v]> config
         | None => config
         end).
Proof.
  unfold copy_field. rewrite contains_str_dict. cbn.
  destruct (section !! key); reflexivity.
Qed.



(** X25. When the profile file holds no mapping but nothing or a single
    scalar ([yaml.safe_load] returns [None], a boolean or a number),
    [get_config], and with it [get_instance], raises [TypeError] for every
    provider. *)
Theorem get_instance_scalar_profile (cls : provider) (v : pyval) :
  scalar v ->
  exists e, get_config cls (Some v) = Raise e /\ get_instance cls (Some v) = Raise e /\
            exc_class e = TypeError.
Proof.
  intros Hv. unfold get_instance.
  destruct v; try destruct Hv; destruct cls; cbn; eauto.
Qed.

(** X26. When the section [att-stt] of the profile lacks [app_key] or
    [app_secret], [get_instance] of the AT&T provider raises [TypeError]. *)
Theorem get_instance_Att_incomplete (d section : gmap string pyval) :
  d !! "att-stt" = Some (PyDict section) ->
  section !! "app_key" = None \/ section !! "app_secret" = None ->
  exists e, get_instance Att (Some (PyDict d)) = Raise e /\ exc_class e = TypeError.
Proof.
  intros Hsec Hmissing. unfold get_instance, get_config.
  rewrite contains_str_dict, Hsec. cbn -[copy_field instantiate]. rewrite Hsec.
  cbn -[copy_field instantiate]. rewrite copy_field_dict.
  cbn -[copy_field instantiate]. rewrite copy_field_dict.
  cbn -[instantiate].
  set (config := match section !! "app_secret" with
                 | Some v => _ | None => _ end).
  assert (config !! "app_key" = None \/ config !! "app_secret" = None) as Hconfig.
  { subst config. destruct Hmissing as [H | H]; rewrite H.
    - left. destruct (section !! "app_secret").
      + rewrite lookup_insert_ne by (intro Hne; discriminate Hne). apply lookup_empty.
      + apply lookup_empty.
    - right. destruct (section !! "app_key").
      + rewrite lookup_insert_ne by (intro Hne; discriminate Hne). apply lookup_empty.
      + apply lookup_empty. }
  unfold instantiate.
  destruct (check_keywords ["app_key"; "app_secret"] config) as [[]|e] eqn:Hk.
  2:{ exists e. split; [reflexivity | exact (check_keywords_TypeError _ _ _ Hk)]. }
  unfold mbind, result_bind, keyword.
  destruct Hconfig as [H | H].
  - rewrite H. eauto.
  - destruct (config !! "app_key"); simpl; [rewrite H|]; eauto.
Qed.

(** ** Instances of the further properties *)


Lemma GoogleSTT_transcribe_unconfigured_witness :
  exists msg,
    GoogleSTT.transcribe (answer server_error) some_audio
      (State (GoogleSTT.__init__ PyNone GoogleSTT.default_language) [] [])
    = (Ret (PyList []),
       State (GoogleSTT.__init__ PyNone GoogleSTT.default_language) []
             [LogRecord CRITICAL msg []]).
Proof.
  apply (GoogleSTT_transcribe_unconfigured (answer server_error) some_audio
           (State (GoogleSTT.__init__ PyNone GoogleSTT.default_language) [] [])).
  left. reflexivity.
Defined.

Lemma GoogleSTT_transcribe_http_error_witness :
  (GoogleSTT.transcribe (answer server_error) some_audio google).1 = Ret (PyList []).
Proof.
  rewrite (GoogleSTT_transcribe_http_error (answer server_error) some_audio google
             (PyInt 16000) server_error).
  - reflexivity.
  - repeat split.
  - simpl. lia.
Defined.

Lemma GoogleSTT_transcribe_outcomes_witness :
  (GoogleSTT.transcribe (answer (http_response 200 empty_result_document))
     some_audio google).1 = Ret (PyList []).
Proof.
  rewrite (proj1 (GoogleSTT_transcribe_outcomes
                    (answer (http_response 200 empty_result_document)) some_audio google
                    (PyInt 16000) (http_response 200 empty_result_document)
                    ltac:(repeat split) eq_refl)
             (PyStr "Nothing has been transcribed.") []).
  - reflexivity.
  - vm_compute. reflexivity.
Defined.

Lemma GoogleSTT_transcribe_empty_result_witness :
  (GoogleSTT.transcribe (answer (http_response 200 empty_result_document))
     some_audio google).1 = Ret (PyList []).
Proof.
  rewrite (GoogleSTT_transcribe_empty_result
             (answer (http_response 200 empty_result_document)) some_audio google
             (PyInt 16000) (http_response 200 empty_result_document)
             empty_result_document {[ "result" := PyList [] ]} (PyList [])).
  - reflexivity.
  - repeat split.
  - reflexivity.
  - vm_compute. reflexivity.
  - vm_compute. reflexivity.
  - vm_compute. reflexivity.
  - reflexivity.
Defined.


Lemma GoogleSTT_transcribe_not_an_object_witness :
  exists e,
    (GoogleSTT.transcribe (answer (http_response 200 "[1]")) some_audio google).1 = Raise e /\
    exc_class e = TypeError.
Proof.
  apply (GoogleSTT_transcribe_not_an_object
           (answer (http_response 200 "[1]")) some_audio google
           (PyInt 16000) (http_response 200 "[1]") "[1]" (PyList [PyInt 1])).
  - repeat split.
  - reflexivity.
  - reflexivity.
  - vm_compute. reflexivity.
  - discriminate.
Defined.

Lemma GoogleSTT_transcribe_invalid_wav_witness :
  GoogleSTT.transcribe (answer server_error) not_wav google
  = (Raise (Exc wave_Error [PyStr "file does not start with RIFF id"]), google).
Proof.
  apply (GoogleSTT_transcribe_invalid_wav (answer server_error) not_wav google);
    reflexivity.
Defined.


Lemma WitAiSTT_transcribe_one_request_witness :
  sent (WitAiSTT.transcribe (answer server_error) some_audio wit).2
  = [wit_request (PyStr "TOKEN") some_audio].
Proof.
  apply (WitAiSTT_transcribe_one_request (answer server_error) some_audio
           (WitAiSTT.__init__ (PyStr "TOKEN")) [] []).
  constructor.
Defined.



Lemma AttSTT_token_cached_witness :
  AttSTT.token (att_transport unauthorized) att_with_token
  = (Ret (PyStr "TOKEN"), att_with_token).
Proof.
  apply (AttSTT_token_cached (att_transport unauthorized) att att_with_token
           (PyStr "TOKEN")); reflexivity.
Defined.

Lemma AttSTT_token_missing_witness :
  AttSTT.transcribe (answer (Response 200 EmptyString (Ret (PyDict ∅)))) some_audio att
  = (Raise (Exc KeyError [PyStr "access_token"]),
     State (self att) [AttSTT.token_request (self att)] []).
Proof.
  apply (AttSTT_token_missing (answer (Response 200 EmptyString (Ret (PyDict ∅))))
           some_audio att (Response 200 EmptyString (Ret (PyDict ∅))) ∅);
    reflexivity.
Defined.

Lemma AttSTT_no_retry_witness :
  sent (AttSTT.transcribe (att_transport server_error) some_audio att).2
  = [AttSTT.token_request (self att);
     AttSTT.speech_request (PyStr "TOKEN") (read some_audio)].
Proof.
  apply (AttSTT_no_retry (att_transport server_error) some_audio att att_with_token
           (PyStr "TOKEN") server_error); [reflexivity | reflexivity | discriminate].
Defined.

Lemma AttSTT_transcribe_absorbed_witness :
  (AttSTT.transcribe
     (att_transport (Response 200 "<html>" (Raise (Exc ValueError [PyStr "Expecting value"]))))
     some_audio att).1
  = Ret (PyList []).
Proof.
  rewrite (proj1 (proj2 (AttSTT_transcribe_absorbed
             (att_transport
                (Response 200 "<html>" (Raise (Exc ValueError [PyStr "Expecting value"]))))
             some_audio att att_with_token (PyStr "TOKEN")
             (Response 200 "<html>" (Raise (Exc ValueError [PyStr "Expecting value"])))
             ltac:(repeat split)))
             (PyStr "Expecting value") [] eq_refl).
  reflexivity.
Defined.



Lemma get_engine_by_slug_sound_witness :
  exists s,
    PyStr "google" = PyStr s /\ s <> EmptyString /\
    In (Class "GoogleSTT" (Some GoogleSTT.SLUG) true [])
       (get_subclasses (AbstractSTTEngine true)) /\
    class_SLUG (Class "GoogleSTT" (Some GoogleSTT.SLUG) true []) = Some (PyStr s) /\
    is_available (Class "GoogleSTT" (Some GoogleSTT.SLUG) true []) = true.
Proof.
  apply (get_engine_by_slug_sound id (AbstractSTTEngine true) (PyStr "google")
           (Class "GoogleSTT" (Some GoogleSTT.SLUG) true []) []).
  - intros l. reflexivity.
  - reflexivity.
Defined.

Lemma get_engine_by_slug_order_independent_witness :
  get_engine_by_slug id (AbstractSTTEngine true) (PyStr "att")
  = get_engine_by_slug (@rev klass) (AbstractSTTEngine true) (PyStr "att").
Proof.
  apply (get_engine_by_slug_order_independent id (@rev klass) (AbstractSTTEngine true)
           "att").
  - intros l. reflexivity.
  - intros l. symmetry. apply Permutation_rev.
  - simpl. lia.
Defined.

Lemma get_engine_by_slug_own_providers_witness :
  get_engine_by_slug (@rev klass) (AbstractSTTEngine false) (PyStr "witai")
  = (Raise (engine_not_available "witai"), []).
Proof.
  apply (get_engine_by_slug_own_providers (@rev klass) false).
  intros l. symmetry. apply Permutation_rev.
Defined.

Lemma get_subclasses_complete_witness :
  listed "SecondDup" (get_subclasses dup_root).
Proof.
  apply (get_subclasses_complete dup_root SecondDup).
  apply descendant_child. right. left. reflexivity.
Defined.


Lemma get_instance_scalar_profile_witness :
  exists e, get_config WitAi (Some PyNone) = Raise e /\
            get_instance WitAi (Some PyNone) = Raise e /\ exc_class e = TypeError.
Proof.
  apply (get_instance_scalar_profile WitAi PyNone). exact I.
Defined.

Lemma get_instance_Att_incomplete_witness :
  exists e, get_instance Att (Some (PyDict att_profile_without_secret)) = Raise e /\
            exc_class e = TypeError.
Proof.
  apply (get_instance_Att_incomplete att_profile_without_secret
           {[ "app_key" := PyStr "KEY" ]}).
  - reflexivity.
  - right. reflexivity.
Defined.
